(** * awebb_analytics: fetch, save and summarise four datasets

    A shallow embedding of [awebb_analytics.py].  The script downloads a text
    file, a CSV file, a spreadsheet and a JSON document, stores each one under
    [data/], and writes one report per dataset.

    Layout of the development:
    - [PyText]: Python's [str.split()], insertion-ordered dictionaries and
      the word statistics of [process_text_data];
    - [Pandas]: cells, typed columns, dtype inference and the float64
      reductions [mean], [median], [std], [max], [min];
    - [Script]: a state-and-exception monad over a file store, a console and
      a call log, and the script's functions written in it;
    - the definitions the statements use: tokens as the specification
      describes them, what a function leaves behind, the outcome of a
      pipeline, and a small concrete world ([Demo]);
    - the theorems: how each function runs, then one block per property of
      the specification. *)

From Stdlib Require Import Floats ZArith Ascii String.
From stdpp Require Import gmap strings list fin_maps pretty.

Open Scope string_scope.
Open Scope list_scope.

#[local] Set Warnings "-clear-no-such-hyp".

(** The line feed written by ["\n"]. *)
Definition nl : string := String (Ascii.ascii_of_nat 10) "".

(** ** Python text primitives *)
Module PyText.

(** [str.isspace] on one character.  Characters are code points below 256:
    tab, line feed, vertical tab, form feed, carriage return, the four
    separators 0x1c-0x1f, space, next-line (0x85) and no-break space (0xa0). *)
Definition isspace (c : ascii) : bool :=
  let n := Ascii.nat_of_ascii c in
  ((9 <=? n)%nat && (n <=? 13)%nat) || ((28 <=? n)%nat && (n <=? 32)%nat)
  || (n =? 133)%nat || (n =? 160)%nat.

(** [text.split()] with no separator: scan left to right, skip whitespace,
    cut a word at the next whitespace.  [cur] is the word being read. *)
Fixpoint split_go (cur : string) (s : string) : list string :=
  match s with
  | EmptyString =>
      match cur with
      | EmptyString => []
      | String _ _ => [cur]
      end
  | String c s' =>
      if isspace c then
        match cur with
        | EmptyString => split_go "" s'
        | String _ _ => cur :: split_go "" s'
        end
      else split_go (cur +:+ String c "") s'
  end.

Definition split (text : string) : list string := split_go "" text.

(** A [dict] keeps its keys in insertion order; assigning to a key that is
    present replaces the value and keeps the key's position. *)
Definition dict (V : Type) := list (string * V).

Fixpoint dict_get {V} (d : dict V) (k : string) (default : V) : V :=
  match d with
  | [] => default
  | (k', v) :: d' => if String.eqb k' k then v else dict_get d' k default
  end.

Fixpoint dict_set {V} (d : dict V) (k : string) (v : V) : dict V :=
  match d with
  | [] => [(k, v)]
  | (k', v') :: d' =>
      if String.eqb k' k then (k', v) :: d' else (k', v') :: dict_set d' k v
  end.

Definition dict_keys {V} (d : dict V) : list string := d.*1.

(** The loop [for word in words: word_freq[word] = word_freq.get(word, 0) + 1]. *)
Definition count_words (words : list string) : dict nat :=
  foldl (fun word_freq word => dict_set word_freq word (dict_get word_freq word 0 + 1))
        [] words.

(** [len(set(words))], the number the text summarizer reports as unique. *)
Definition unique_word_count (words : list string) : nat :=
  size (list_to_set words : gset string).

End PyText.

(** ** Exceptions and results *)

(** The exceptions the script can meet.  [LibraryError] stands for whatever
    a parser of a library raises on content it cannot read. *)
Inductive exn :=
  | ConnectionError (url : string)
  | JSONDecodeError
  | PermissionError (path : string)
  | FileNotFoundError (path : string)
  | TypeError (msg : string)
  | AttributeError (msg : string)
  | EmptyDataError
  | ParserError
  | LibraryError (msg : string).

(** [str(e)], as the handlers print it with [f"{e}"]. *)
Definition exn_str (e : exn) : string :=
  match e with
  | ConnectionError url => "Connection failed: " +:+ url
  | JSONDecodeError => "Expecting value: line 1 column 1 (char 0)"
  | PermissionError path => "[Errno 13] Permission denied: '" +:+ path +:+ "'"
  | FileNotFoundError path => "[Errno 2] No such file or directory: '" +:+ path +:+ "'"
  | TypeError msg => msg
  | AttributeError msg => msg
  | EmptyDataError => "No columns to parse from file"
  | ParserError => "Error tokenizing data"
  | LibraryError msg => msg
  end.

Inductive result (A : Type) :=
  | Ok (a : A)
  | Raise (e : exn).
Arguments Ok {A} a.
Arguments Raise {A} e.

(** ** The part of pandas the script uses *)

(** The script hands its tables to pandas: [read_csv] and [read_excel] build a
    frame, [select_dtypes] picks the numeric columns, five reductions give
    the statistics, [to_numpy] gives the rows and [to_csv] writes the frame
    back.  This module models that behaviour on parsed cells.  Numbers are
    binary64 floats and unbounded integers standing for int64; sums are
    taken from left to right. *)
Module Pandas.
Import PyText.

(** A cell as the reader hands it over: empty (null), a number, a boolean
    or text.  A value "parses as a number" when the reader produced [CInt]
    or [CFloat] for it. *)
Inductive cell :=
  | CNull
  | CInt (z : Z)
  | CFloat (f : float)
  | CBool (b : bool)
  | CStr (s : string).

(** A column with its dtype.  The null of a [Float64] column is NaN. *)
Inductive Series :=
  | Int64 (l : list Z)
  | Float64 (l : list float)
  | Bool (l : list bool)
  | Object (l : list cell).

(** A numpy scalar: what a reduction returns. *)
Inductive scalar :=
  | SInt (z : Z)
  | SFloat (f : float).

Record DataFrame := {
  index_len : nat;
  columns : list (string * Series)
}.

(** int64 to float64, exact rounding for [|z| < 2^63]. *)
Definition float_of_Z (z : Z) : float :=
  match z with
  | Z0 => 0%float
  | Zpos _ => PrimFloat.of_uint63 (Uint63.of_Z z)
  | Zneg p => PrimFloat.opp (PrimFloat.of_uint63 (Uint63.of_Z (Zpos p)))
  end.

Definition float_of_nat (n : nat) : float := float_of_Z (Z.of_nat n).

Definition is_int (c : cell) : bool :=
  match c with CInt _ => true | _ => false end.
Definition is_number_cell (c : cell) : bool :=
  match c with CInt _ | CFloat _ => true | _ => false end.
Definition is_null (c : cell) : bool :=
  match c with CNull => true | _ => false end.
Definition is_bool (c : cell) : bool :=
  match c with CBool _ => true | _ => false end.

Definition cell_int (c : cell) : Z :=
  match c with CInt z => z | _ => 0%Z end.
Definition cell_float (c : cell) : float :=
  match c with CInt z => float_of_Z z | CFloat f => f | _ => nan end.
Definition cell_bool (c : cell) : bool :=
  match c with CBool b => b | _ => false end.

(** Dtype inference over the cells of one column, in the readers' cast order
    int64, float64, bool, object.  A column without cells stays [object]; a
    column whose cells are numbers or nulls, with at least one null or one
    float, is float64 with NaN for the nulls. *)
Definition infer (cells : list cell) : Series :=
  match cells with
  | [] => Object []
  | _ :: _ =>
      if forallb is_int cells then Int64 (cell_int <$> cells)
      else if forallb (fun c => is_number_cell c || is_null c) cells
           then Float64 (cell_float <$> cells)
      else if forallb is_bool cells then Bool (cell_bool <$> cells)
      else Object cells
  end.

(** The cells of column [j], one per data row; a row that is too short
    yields a null. *)
Definition column_cells (j : nat) (rows : list (list cell)) : list cell :=
  (fun r => default CNull (r !! j)) <$> rows.

(** Build the frame from a header row and the data rows: column [j] takes the
    [j]-th name and the inferred dtype, and a short row is filled up with
    nulls.  The model covers tables whose data rows have no more fields than
    the header; a longer row is refused here. *)
Definition read_table (header : list string) (rows : list (list cell)) : result DataFrame :=
  if existsb (fun r => (length header <? length r)%nat) rows then Raise ParserError
  else Ok {| index_len := length rows;
             columns := imap (fun j name => (name, infer (column_cells j rows))) header |}.

(** *** Reductions of a numeric column ([skipna=True], [ddof=1]) *)

Definition dropna (l : list float) : list float :=
  List.filter (fun f => negb (PrimFloat.is_nan f)) l.

Definition fsum (l : list float) : float := foldl PrimFloat.add 0%float l.

(** [nanops.nanmean]: the sum over the count, NaN for an empty column. *)
Definition nanmean (v : list float) : float :=
  match v with
  | [] => nan
  | _ :: _ => (fsum v / float_of_nat (length v))%float
  end.

Fixpoint insert_sorted (x : float) (l : list float) : list float :=
  match l with
  | [] => [x]
  | y :: l' => if (x <=? y)%float then x :: l else y :: insert_sorted x l'
  end.

Definition sort (l : list float) : list float := foldr insert_sorted [] l.

(** [numpy.median] of the values: the middle one of the sorted values, or
    the mean of the two middle ones when their number is even. *)
Definition nanmedian (v : list float) : float :=
  let s := sort v in
  let n := length v in
  match n with
  | O => nan
  | S _ =>
      if Nat.even n
      then ((nth (n / 2 - 1) s nan + nth (n / 2) s nan) / 2)%float
      else nth (n / 2) s nan
  end.

(** [nanops.nanvar] with [ddof=1]: when [count <= ddof] both the count and
    the divisor become NaN, and so does the result. *)
Definition nanvar (v : list float) : float :=
  let count := length v in
  if (count <=? 1)%nat then nan
  else
    let avg := (fsum v / float_of_nat count)%float in
    let sqr := (fun x => ((avg - x) * (avg - x))%float) <$> v in
    (fsum sqr / float_of_nat (count - 1))%float.

Definition nanstd (v : list float) : float := PrimFloat.sqrt (nanvar v).

Definition fmax (a b : float) : float := if (a <? b)%float then b else a.
Definition fmin (a b : float) : float := if (b <? a)%float then b else a.

Definition nanmax (v : list float) : float :=
  match v with [] => nan | x :: v' => foldl fmax x v' end.
Definition nanmin (v : list float) : float :=
  match v with [] => nan | x :: v' => foldl fmin x v' end.

(** The non-null values of a numeric column as float64. *)
Definition series_floats (s : Series) : list float :=
  match s with
  | Int64 l => float_of_Z <$> l
  | Float64 l => dropna l
  | Bool _ | Object _ => []
  end.

(** The number of non-null values, [Series.count()]. *)
Definition series_count (s : Series) : nat :=
  match s with
  | Int64 l => length l
  | Float64 l => length (dropna l)
  | Bool l => length l
  | Object l => length (List.filter (fun c => negb (is_null c)) l)
  end.

(** The methods below are only ever called on numeric columns. *)
Definition Series_mean (s : Series) : scalar := SFloat (nanmean (series_floats s)).
Definition Series_median (s : Series) : scalar := SFloat (nanmedian (series_floats s)).
Definition Series_std (s : Series) : scalar := SFloat (nanstd (series_floats s)).

Definition Series_max (s : Series) : scalar :=
  match s with
  | Int64 (x :: l) => SInt (foldl Z.max x l)
  | Float64 l => SFloat (nanmax (dropna l))
  | _ => SFloat nan
  end.

Definition Series_min (s : Series) : scalar :=
  match s with
  | Int64 (x :: l) => SInt (foldl Z.min x l)
  | Float64 l => SFloat (nanmin (dropna l))
  | _ => SFloat nan
  end.

(** [df.select_dtypes(include=['number']).columns]. *)
Definition is_number (s : Series) : bool :=
  match s with Int64 _ | Float64 _ => true | Bool _ | Object _ => false end.

Definition select_dtypes_number (df : DataFrame) : list string :=
  (List.filter (fun c => is_number c.2) (columns df)).*1.

(** [df[column]]: the column of that name. *)
Definition getitem (df : DataFrame) (column : string) : option Series :=
  snd <$> List.find (fun c => String.eqb c.1 column) (columns df).

(** The dictionary built for one column, keys in the order of the literal. *)
Definition column_metrics (s : Series) : dict scalar :=
  [ ("Mean", Series_mean s);
    ("Median", Series_median s);
    ("Standard Deviation", Series_std s);
    ("Max", Series_max s);
    ("Min", Series_min s) ].

(** The loop [for column in df.select_dtypes(...).columns: stats[column] = {...}],
    the same in [process_csv_data] and in [process_excel_data]. *)
Definition numeric_stats (df : DataFrame) : dict (dict scalar) :=
  foldl (fun stats column =>
           match getitem df column with
           | Some s => dict_set stats column (column_metrics s)
           | None => stats
           end)
        [] (select_dtypes_number df).

(** *** Rows *)

Definition series_cell (s : Series) (i : nat) : cell :=
  match s with
  | Int64 l => from_option CInt CNull (l !! i)
  | Float64 l => from_option CFloat CNull (l !! i)
  | Bool l => from_option CBool CNull (l !! i)
  | Object l => default CNull (l !! i)
  end.

Definition df_row (df : DataFrame) (i : nat) : list cell :=
  (fun c => series_cell c.2 i) <$> columns df.

Definition df_rows (df : DataFrame) : list (list cell) :=
  df_row df <$> seq 0 (index_len df).

Definition is_int64 (s : Series) : bool :=
  match s with Int64 _ => true | _ => false end.

Definition upcast (c : cell) : cell :=
  match c with CInt z => CFloat (float_of_Z z) | _ => c end.

(** [df.to_numpy()]: one array row per data row, in the common dtype of the
    columns: ints stay ints when every column is int64, become floats when
    every column is numeric, and values are kept as they are otherwise. *)
Definition to_numpy (df : DataFrame) : list (list cell) :=
  if forallb (fun c => is_int64 c.2) (columns df) then df_rows df
  else if forallb (fun c => is_number c.2) (columns df)
       then (fun row : list cell => upcast <$> row) <$> df_rows df
  else df_rows df.

End Pandas.

(** ** The script *)
Module Script.
Import PyText Pandas.

(** *** JSON values and the dynamic operations applied to them *)

(** A decoded JSON document.  An object is a [dict]: its keys are distinct
    and keep the order of the document. *)
#[local] Unset Elimination Schemes.
Inductive json :=
  | JNull
  | JBool (b : bool)
  | JInt (z : Z)
  | JFloat (f : float)
  | JStr (s : string)
  | JArr (l : list json)
  | JObj (kv : list (string * json)).
#[local] Set Elimination Schemes.

Definition type_name (v : json) : string :=
  match v with
  | JNull => "NoneType"
  | JBool _ => "bool"
  | JInt _ => "int"
  | JFloat _ => "float"
  | JStr _ => "str"
  | JArr _ => "list"
  | JObj _ => "dict"
  end.

(** [len(data)]. *)
Definition py_len (v : json) : result nat :=
  match v with
  | JStr s => Ok (String.length s)
  | JArr l => Ok (length l)
  | JObj kv => Ok (length kv)
  | _ => Raise (TypeError ("object of type '" +:+ type_name v +:+ "' has no len()"))
  end.

(** [data.items()]. *)
Definition py_items (v : json) : result (list (string * json)) :=
  match v with
  | JObj kv => Ok kv
  | _ => Raise (AttributeError ("'" +:+ type_name v +:+ "' object has no attribute 'items'"))
  end.

(** Truth value of a string and of a decoded JSON value, as [if x:] tests it. *)
Definition str_truthy (s : string) : bool :=
  match s with EmptyString => false | String _ _ => true end.

Definition json_truthy (v : json) : bool :=
  match v with
  | JNull => false
  | JBool b => b
  | JInt z => negb (z =? 0)%Z
  | JFloat f => negb (f =? 0)%float
  | JStr s => str_truthy s
  | JArr l => match l with [] => false | _ :: _ => true end
  | JObj kv => match kv with [] => false | _ :: _ => true end
  end.

(** *** What the script takes from its libraries and from the outside *)

(** Codecs and renderings of [json], [pandas] and the f-string machinery,
    kept abstract: the script's own logic does not depend on them. *)
Record library := {
  (** [json.load] and [Response.json]; [None] is a decoding error *)
  json_loads : string -> option json;
  (** the text [json.dump(content, file, indent=4)] writes *)
  json_dumps : json -> string;
  (** the CSV tokenizer: the fields of each line that is not blank *)
  csv_tokenize : string -> list (list string);
  (** one CSV field as a cell *)
  parse_cell : string -> cell;
  (** lines of fields as CSV text, and the field [to_csv] writes for a cell *)
  csv_join : list (list string) -> string;
  render_cell : cell -> string;
  (** the first sheet of a workbook: header names and rows of cells *)
  excel_table : string -> result (list string * list (list cell));
  (** [f"{value}"] for a numpy scalar, a tuple of an array row, a JSON value *)
  str_scalar : scalar -> string;
  str_tuple : list cell -> string;
  str_json : json -> string
}.

(** An HTTP response.  The body stands for both [response.text] and
    [response.content]. *)
Record response := {
  status_code : Z;
  body : string
}.

(** The outside world of one run: what each URL answers ([Raise] is a
    transport error) and which paths can be opened for writing. *)
Record environment := {
  http_get : string -> result response;
  writable : string -> bool
}.

(** *** State *)

Inductive dataset := Text | CSV | Spreadsheet | JSON.

(** The call log is ghost state: it records which function of the script
    was entered, in order.  Each fetcher, writer and summarizer below starts
    by logging its call; nothing reads the log. *)
Inductive call :=
  | Fetch (d : dataset)
  | Save (d : dataset)
  | Process (d : dataset).

(** Files are keyed by their path relative to the working directory; the
    directory [data] of [data_path] is assumed to exist, as the two [mkdir]
    calls of the script ensure. *)
Record state := {
  fs : gmap string string;
  console : list string;
  calls : list call
}.

Definition set_fs (f : gmap string string -> gmap string string) (s : state) : state :=
  {| fs := f (fs s); console := console s; calls := calls s |}.

(** *** The monad: state and exceptions *)

Definition M (A : Type) : Type := state -> result A * state.

#[global] Instance M_ret : MRet M := fun A a s => (Ok a, s).

#[global] Instance M_bind : MBind M := fun A B k m s =>
  match m s with
  | (Ok a, s') => k a s'
  | (Raise e, s') => (Raise e, s')
  end.

Definition raise {A} (e : exn) : M A := fun s => (Raise e, s).

Definition lift {A} (r : result A) : M A := fun s => (r, s).

(** [try: m except Exception as e: h e]. *)
Definition try_except {A} (m : M A) (h : exn -> M A) : M A := fun s =>
  match m s with
  | (Ok a, s') => (Ok a, s')
  | (Raise e, s') => h e s'
  end.

(** [for x in l: f x]. *)
Fixpoint for_each {A} (l : list A) (f : A -> M unit) : M unit :=
  match l with
  | [] => mret tt
  | x :: l' => f x;; for_each l' f
  end.

Definition print (line : string) : M unit := fun s =>
  (Ok tt, {| fs := fs s; console := console s ++ [line]; calls := calls s |}).

Definition log_call (c : call) : M unit := fun s =>
  (Ok tt, {| fs := fs s; console := console s; calls := calls s ++ [c] |}).

Definition path_join (folder name : string) : string := folder +:+ "/" +:+ name.

Section WithWorld.
Context (lib : library) (env : environment).

(** [requests.get(url)]. *)
Definition requests_get (url : string) : M response := lift (http_get env url).

(** [open(path, 'w')]: the file is created or truncated. *)
Definition open_w (path : string) : M unit := fun s =>
  if writable env path then (Ok tt, set_fs (insert path "") s)
  else (Raise (PermissionError path), s).

(** [file.write(data)] on the file opened at [path].  Leaving the [with]
    block closes the file, also when an exception leaves it, so what was
    written stays in the file. *)
Definition file_write (path data : string) : M unit := fun s =>
  (Ok tt, set_fs (alter (fun c => c +:+ data) path) s).

(** [open(path, 'r')] followed by [file.read()]. *)
Definition read_file (path : string) : M string := fun s =>
  match fs s !! path with
  | Some c => (Ok c, s)
  | None => (Raise (FileNotFoundError path), s)
  end.

(** [json.load(file)]. *)
Definition json_load (path : string) : M json :=
  c ← read_file path;
  match json_loads lib c with
  | Some v => mret v
  | None => raise JSONDecodeError
  end.

(** [pd.read_csv] on CSV text: the first line is the header. *)
Definition parse_csv (content : string) : result DataFrame :=
  match csv_tokenize lib content with
  | [] => Raise EmptyDataError
  | header :: rows => read_table header ((fun r : list string => parse_cell lib <$> r) <$> rows)
  end.

Definition read_csv (path : string) : M DataFrame :=
  c ← read_file path; lift (parse_csv c).

(** [pd.read_excel(path)]. *)
Definition parse_excel (content : string) : result DataFrame :=
  match excel_table lib content with
  | Ok (header, rows) => read_table header rows
  | Raise e => Raise e
  end.

Definition read_excel (path : string) : M DataFrame :=
  c ← read_file path; lift (parse_excel c).

(** [df.to_csv(path, index=False)]: the header line, then one line per row. *)
Definition to_csv_fields (df : DataFrame) : list (list string) :=
  (columns df).*1 :: ((fun row : list cell => render_cell lib <$> row) <$> df_rows df).

Definition to_csv (df : DataFrame) (path : string) : M unit :=
  open_w path;; file_write path (csv_join lib (to_csv_fields df)).

(** **** Fetch functions *)

Definition fetch_txt_data (url : string) : M (option string) :=
  log_call (Fetch Text);;
  response ← requests_get url;
  if (status_code response =? 200)%Z then mret (Some (body response))
  else
    print ("Failed to fetch text data: " +:+ pretty (status_code response));;
    mret None.

Definition fetch_csv_data (url : string) : M (option string) :=
  log_call (Fetch CSV);;
  response ← requests_get url;
  if (status_code response =? 200)%Z then mret (Some (body response))
  else
    print ("Failed to fetch CSV data: " +:+ pretty (status_code response));;
    mret None.

Definition fetch_json_data (url : string) : M (option json) :=
  log_call (Fetch JSON);;
  response ← requests_get url;
  if (status_code response =? 200)%Z then
    match json_loads lib (body response) with
    | Some v => mret (Some v)
    | None => raise JSONDecodeError
    end
  else
    print ("Failed to fetch JSON data: " +:+ pretty (status_code response));;
    mret None.

Definition fetch_excel_data (url : string) : M (option string) :=
  log_call (Fetch Spreadsheet);;
  response ← requests_get url;
  if (status_code response =? 200)%Z then mret (Some (body response))
  else
    print ("Failed to fetch Excel data: " +:+ pretty (status_code response));;
    mret None.

(** **** Save functions *)

Definition data_path : string := "data".

Definition save_text (filename content : string) : M unit :=
  log_call (Save Text);;
  let file_path := path_join data_path filename in
  (open_w file_path;; file_write file_path content);;
  print ("Text data saved to " +:+ file_path).

Definition save_json (filename : string) (content : json) : M unit :=
  log_call (Save JSON);;
  let file_path := path_join data_path filename in
  (open_w file_path;; file_write file_path (json_dumps lib content));;
  print ("JSON data saved to " +:+ file_path).

Definition save_csv (filename content : string) : M unit :=
  log_call (Save CSV);;
  let file_path := path_join data_path filename in
  df ← lift (parse_csv content);
  to_csv df file_path;;
  print ("CSV data saved to " +:+ file_path).

Definition save_excel (filename content : string) : M unit :=
  log_call (Save Spreadsheet);;
  let file_path := path_join data_path filename in
  (open_w file_path;; file_write file_path content);;
  print ("Excel data saved to " +:+ file_path).

(** **** Summarizers *)

Definition process_text_data (folder_name filename processed_filename : string) : M unit :=
  log_call (Process Text);;
  let input_file_path := path_join folder_name filename in
  let output_file_path := path_join folder_name processed_filename in
  try_except
    (text ← read_file input_file_path;
     let words := split text in
     let unique_words : gset string := list_to_set words in
     let word_freq := count_words words in
     let total_words := length words in
     let unique_word_count := size unique_words in
     (open_w output_file_path;;
      file_write output_file_path ("Total words: " +:+ pretty total_words +:+ nl);;
      file_write output_file_path ("Unique words: " +:+ pretty unique_word_count +:+ nl);;
      file_write output_file_path ("Word frequencies:" +:+ nl);;
      for_each word_freq (fun '(word, freq) =>
        file_write output_file_path (word +:+ ": " +:+ pretty freq +:+ nl)));;
     print ("Text data processed and saved to " +:+ output_file_path))
    (fun e => print ("Error processing text data: " +:+ exn_str e)).

(** The inner loop [for key, value in metrics.items()]. *)
Definition write_metrics (path : string) (metrics : dict scalar) : M unit :=
  for_each metrics (fun '(key, value) =>
    file_write path (key +:+ ": " +:+ str_scalar lib value +:+ nl)).

Definition process_csv_data (folder_name filename processed_filename : string) : M unit :=
  log_call (Process CSV);;
  let input_file_path := path_join folder_name filename in
  let output_file_path := path_join folder_name processed_filename in
  try_except
    (df ← read_csv input_file_path;
     let rows_as_tuples := to_numpy df in
     let stats := numeric_stats df in
     (open_w output_file_path;;
      file_write output_file_path ("Rows as tuples:" +:+ nl);;
      for_each rows_as_tuples (fun row =>
        file_write output_file_path (str_tuple lib row +:+ nl));;
      file_write output_file_path (nl +:+ "Statistics for numeric columns:" +:+ nl);;
      for_each stats (fun '(column, metrics) =>
        file_write output_file_path (nl +:+ column +:+ ":" +:+ nl);;
        write_metrics output_file_path metrics));;
     print ("CSV data processed and saved to " +:+ output_file_path))
    (fun e => print ("Error processing CSV data: " +:+ exn_str e)).

Definition process_json_data (folder_name filename processed_filename : string) : M unit :=
  log_call (Process JSON);;
  let input_file_path := path_join folder_name filename in
  let output_file_path := path_join folder_name processed_filename in
  try_except
    (data ← json_load input_file_path;
     item_count ← lift (py_len data);
     (open_w output_file_path;;
      file_write output_file_path ("Item count: " +:+ pretty item_count +:+ nl);;
      file_write output_file_path ("JSON data summary:" +:+ nl);;
      items ← lift (py_items data);
      for_each items (fun '(key, value) =>
        file_write output_file_path (key +:+ ": " +:+ str_json lib value +:+ nl)));;
     print ("JSON data processed and saved to " +:+ output_file_path))
    (fun e => print ("Error processing JSON data: " +:+ exn_str e)).

Definition process_excel_data (folder_name filename processed_filename : string) : M unit :=
  log_call (Process Spreadsheet);;
  let input_file_path := path_join folder_name filename in
  let output_file_path := path_join folder_name processed_filename in
  try_except
    (df ← read_excel input_file_path;
     let stats := numeric_stats df in
     (open_w output_file_path;;
      for_each stats (fun '(column, metrics) =>
        file_write output_file_path ("Statistics for " +:+ column +:+ ":" +:+ nl);;
        write_metrics output_file_path metrics));;
     print ("Excel data processed and saved to " +:+ output_file_path))
    (fun e => print ("Error processing Excel data: " +:+ exn_str e)).

(** **** Main *)

(** [main] creates the directory [data] if needed, then runs four blocks,
    one per dataset. *)

Definition txt_url : string :=
  "https://raw.githubusercontent.com/denisecase/datafun-03-spec/main/data.txt".
Definition csv_url : string :=
  "https://raw.githubusercontent.com/denisecase/datafun-03-spec/main/data.csv".
Definition excel_url : string :=
  "https://raw.githubusercontent.com/denisecase/datafun-03-spec/main/data.xls".
Definition json_url : string :=
  "https://raw.githubusercontent.com/denisecase/datafun-03-spec/main/data.json".

Definition txt_filename : string := "data.txt".
Definition csv_filename : string := "data.csv".
Definition excel_filename : string := "data.xls".
Definition json_filename : string := "data.json".

(** The four blocks of [main].  [if content:] is Python's truth test: [None]
    and empty content are both false. *)
Definition text_block : M unit :=
  text_content ← fetch_txt_data txt_url;
  match text_content with
  | Some content =>
      if str_truthy content then
        save_text txt_filename content;;
        process_text_data "data" txt_filename "processed_text.txt"
      else mret tt
  | None => mret tt
  end.

Definition csv_block : M unit :=
  csv_content ← fetch_csv_data csv_url;
  match csv_content with
  | Some content =>
      if str_truthy content then
        save_csv csv_filename content;;
        process_csv_data "data" csv_filename "processed_csv.txt"
      else mret tt
  | None => mret tt
  end.

Definition excel_block : M unit :=
  excel_content ← fetch_excel_data excel_url;
  match excel_content with
  | Some content =>
      if str_truthy content then
        save_excel excel_filename content;;
        process_excel_data "data" excel_filename "processed_excel.txt"
      else mret tt
  | None => mret tt
  end.

Definition json_block : M unit :=
  json_content ← fetch_json_data json_url;
  match json_content with
  | Some content =>
      if json_truthy content then
        save_json json_filename content;;
        process_json_data "data" json_filename "processed_json.txt"
      else mret tt
  | None => mret tt
  end.

Definition main : M unit :=
  text_block;; csv_block;; excel_block;; json_block.

End WithWorld.
End Script.

Import PyText Pandas Script.

(** * Definitions for the statements *)

(** ** Words, as the specification describes them *)

(** Whitespace-delimited tokens, read from the right: a character that is
    not whitespace opens a token when whitespace or the end follows it, and
    otherwise joins the token that starts right after it. *)
Fixpoint whitespace_tokens (s : string) : list string :=
  match s with
  | EmptyString => []
  | String c s' =>
      if isspace c then whitespace_tokens s'
      else
        match s' with
        | EmptyString => [String c ""]
        | String c' _ =>
            if isspace c' then String c "" :: whitespace_tokens s'
            else
              match whitespace_tokens s' with
              | w :: ws => String c w :: ws
              | [] => [String c ""]
              end
        end
  end.

(** The distinct tokens in the order of their first occurrence. *)
Fixpoint first_seen (seen : list string) (l : list string) : list string :=
  match l with
  | [] => []
  | w :: l' =>
      if bool_decide (w ∈ seen) then first_seen seen l'
      else w :: first_seen (w :: seen) l'
  end.

Definition distinct_tokens (l : list string) : list string := first_seen [] l.

(** How often [w] occurs in [l]. *)
Definition occurrences (w : string) (l : list string) : nat :=
  length (filter (fun x => x = w) l).

Fixpoint all_chars (p : ascii -> bool) (s : string) : bool :=
  match s with
  | EmptyString => true
  | String c s' => p c && all_chars p s'
  end.

(** A word: not empty, no whitespace in it. *)
Definition is_word (w : string) : Prop :=
  w <> "" /\ all_chars (fun c => negb (isspace c)) w = true.

(** What follows a word: the end of the text, or a whitespace character. *)
Definition at_boundary (rest : string) : Prop :=
  match rest with
  | EmptyString => True
  | String c _ => isspace c = true
  end.

(** [tokenizes text toks]: the text is the words [toks], in order, each
    preceded by a run of whitespace (possibly empty before the first word)
    and followed by whitespace or by the end of the text, with only
    whitespace after the last word. *)
Inductive tokenizes : string -> list string -> Prop :=
  | tokenizes_end (ws : string) :
      all_chars isspace ws = true -> tokenizes ws []
  | tokenizes_word (ws w rest : string) (toks : list string) :
      all_chars isspace ws = true ->
      is_word w ->
      at_boundary rest ->
      tokenizes rest toks ->
      tokenizes (ws +:+ w +:+ rest) (w :: toks).

(** What [split_go] returns when a word [w] is being read and [s] is ahead:
    [w] ends at once before whitespace or at the end, and otherwise grows by
    the first token of [s]. *)
Definition glue (w : string) (s : string) : list string :=
  match s with
  | EmptyString => [w]
  | String c _ =>
      if isspace c then w :: whitespace_tokens s
      else
        match whitespace_tokens s with
        | t :: ts => (w +:+ t) :: ts
        | [] => [w]
        end
  end.

(** The frequency table over the distinct words in first-seen order. *)
Definition word_table (l : list string) : dict nat :=
  (fun w => (w, occurrences w l)) <$> distinct_tokens l.

(** Concatenation of the pieces a loop writes. *)
Definition cat (pieces : list string) : string := foldr append "" pieces.

(** The report the specification describes for a list of tokens. *)
Definition word_report (tokens : list string) : string :=
  "Total words: " +:+ pretty (length tokens) +:+ nl +:+
  "Unique words: " +:+ pretty (length (distinct_tokens tokens)) +:+ nl +:+
  "Word frequencies:" +:+ nl +:+
  cat ((fun w => w +:+ ": " +:+ pretty (occurrences w tokens) +:+ nl)
       <$> distinct_tokens tokens).

(** ** Runs *)

(** [writes path m data r]: run on a state where [path] holds [c], the
    computation [m] ends with [r] and leaves [c +:+ data] in [path], the rest
    of the state untouched. *)
Definition writes (path : string) (m : M unit) (data : string) (r : result unit) : Prop :=
  forall (s : state) (c : string),
    fs s !! path = Some c -> m s = (r, set_fs (insert path (c +:+ data)) s).

(** A summarizer or a writer leaves at most one file and one console line. *)
Record effect := {
  eff_write : option (string * string);
  eff_line : string
}.

Definition apply_effect (c : call) (e : effect) (s : state) : state :=
  {| fs := match eff_write e with
           | Some (path, data) => <[path := data]> (fs s)
           | None => fs s
           end;
     console := console s ++ [eff_line e];
     calls := calls s ++ [c] |}.

Definition log (c : call) (s : state) : state :=
  {| fs := fs s; console := console s; calls := calls s ++ [c] |}.

Definition effect_map (e : effect) : gmap string string :=
  match eff_write e with
  | Some (path, data) => {[ path := data ]}
  | None => ∅
  end.

(** [runs m r cs]: from every state, [m] ends with [r], enters the functions
    [cs], and overwrites the file store with one fixed set of files. *)
Definition runs (m : M unit) (r : result unit) (cs : list call) : Prop :=
  exists W : gmap string string, forall s, exists s',
    m s = (r, s') /\ calls s' = calls s ++ cs /\ fs s' = W ∪ fs s.

Section Reports.
Context (lib : library) (env : environment).

(** The text a complete run of each summarizer writes. *)
Definition text_report (text : string) : string :=
  let words := split text in
  ("Total words: " +:+ pretty (length words) +:+ nl)
  +:+ ("Unique words: " +:+ pretty (unique_word_count words) +:+ nl)
  +:+ ("Word frequencies:" +:+ nl)
  +:+ cat ((fun '(word, freq) => word +:+ ": " +:+ pretty freq +:+ nl) <$> count_words words).

Definition metrics_lines (metrics : dict scalar) : string :=
  cat ((fun '(key, value) => key +:+ ": " +:+ str_scalar lib value +:+ nl) <$> metrics).

Definition csv_report (df : DataFrame) : string :=
  ("Rows as tuples:" +:+ nl)
  +:+ cat ((fun row => str_tuple lib row +:+ nl) <$> to_numpy df)
  +:+ (nl +:+ "Statistics for numeric columns:" +:+ nl)
  +:+ cat ((fun '(column, metrics) =>
              (nl +:+ column +:+ ":" +:+ nl) +:+ metrics_lines metrics)
           <$> numeric_stats df).

Definition excel_report (df : DataFrame) : string :=
  cat ((fun '(column, metrics) =>
          ("Statistics for " +:+ column +:+ ":" +:+ nl) +:+ metrics_lines metrics)
       <$> numeric_stats df).

(** The two lines at the top of the JSON report, followed by [entries]. *)
Definition json_report (item_count : nat) (entries : string) : string :=
  ("Item count: " +:+ pretty item_count +:+ nl)
  +:+ ("JSON data summary:" +:+ nl)
  +:+ entries.

Definition json_entries (items : list (string * json)) : string :=
  cat ((fun '(key, value) => key +:+ ": " +:+ str_json lib value +:+ nl) <$> items).

Definition failed (what : string) (e : exn) : effect :=
  {| eff_write := None; eff_line := "Error processing " +:+ what +:+ " data: " +:+ exn_str e |}.

Definition process_text_effect (folder filename processed : string)
    (input : option string) : effect :=
  let out := path_join folder processed in
  match input with
  | None => failed "text" (FileNotFoundError (path_join folder filename))
  | Some text =>
      if writable env out then
        {| eff_write := Some (out, text_report text);
           eff_line := "Text data processed and saved to " +:+ out |}
      else failed "text" (PermissionError out)
  end.

Definition process_csv_effect (folder filename processed : string)
    (input : option string) : effect :=
  let out := path_join folder processed in
  match input with
  | None => failed "CSV" (FileNotFoundError (path_join folder filename))
  | Some c =>
      match parse_csv lib c with
      | Raise e => failed "CSV" e
      | Ok df =>
          if writable env out then
            {| eff_write := Some (out, csv_report df);
               eff_line := "CSV data processed and saved to " +:+ out |}
          else failed "CSV" (PermissionError out)
      end
  end.

Definition process_excel_effect (folder filename processed : string)
    (input : option string) : effect :=
  let out := path_join folder processed in
  match input with
  | None => failed "Excel" (FileNotFoundError (path_join folder filename))
  | Some c =>
      match parse_excel lib c with
      | Raise e => failed "Excel" e
      | Ok df =>
          if writable env out then
            {| eff_write := Some (out, excel_report df);
               eff_line := "Excel data processed and saved to " +:+ out |}
          else failed "Excel" (PermissionError out)
      end
  end.

Definition process_json_effect (folder filename processed : string)
    (input : option string) : effect :=
  let out := path_join folder processed in
  match input with
  | None => failed "JSON" (FileNotFoundError (path_join folder filename))
  | Some c =>
      match json_loads lib c with
      | None => failed "JSON" JSONDecodeError
      | Some data =>
          match py_len data with
          | Raise e => failed "JSON" e
          | Ok item_count =>
              if writable env out then
                match py_items data with
                | Ok items =>
                    {| eff_write := Some (out, json_report item_count (json_entries items));
                       eff_line := "JSON data processed and saved to " +:+ out |}
                | Raise e =>
                    {| eff_write := Some (out, json_report item_count "");
                       eff_line := "Error processing JSON data: " +:+ exn_str e |}
                end
              else failed "JSON" (PermissionError out)
          end
      end
  end.

(** Writers: one file and one line on success, an exception that leaves
    the function otherwise. *)
Definition saved (what path data : string) : effect :=
  {| eff_write := Some (path, data);
     eff_line := what +:+ " data saved to " +:+ path |}.

(** Fetchers: the answer of the server decides. *)
Definition refused (what : string) (r : response) (c : call) (s : state) : state :=
  {| fs := fs s;
     console := console s ++ ["Failed to fetch " +:+ what +:+ " data: " +:+ pretty (status_code r)];
     calls := calls s ++ [c] |}.

End Reports.

(** ** The pipelines of [main] *)

Section Pipelines.
Context (lib : library) (env : environment).

Definition url_of (d : dataset) : string :=
  match d with
  | Text => txt_url
  | CSV => csv_url
  | Spreadsheet => excel_url
  | JSON => json_url
  end.

Definition data_file (d : dataset) : string :=
  path_join data_path
    match d with
    | Text => txt_filename
    | CSV => csv_filename
    | Spreadsheet => excel_filename
    | JSON => json_filename
    end.

Definition block (d : dataset) : M unit :=
  match d with
  | Text => text_block env
  | CSV => csv_block lib env
  | Spreadsheet => excel_block lib env
  | JSON => json_block lib env
  end.

(** The exception that leaves the fetcher of [d], if any: a transport error,
    or a body that is not JSON for the JSON dataset. *)
Definition fetch_exn (d : dataset) : option exn :=
  match http_get env (url_of d) with
  | Raise e => Some e
  | Ok r =>
      match d with
      | JSON =>
          if (status_code r =? 200)%Z then
            match json_loads lib (body r) with
            | Some _ => None
            | None => Some JSONDecodeError
            end
          else None
      | _ => None
      end
  end.


(** The fetcher of [d] returned something that [if content:] accepts: the
    status is 200 and the content is not empty (for JSON: the decoded value
    is not [null], [false], zero or empty). *)
Definition payload_truthy (d : dataset) : bool :=
  match http_get env (url_of d) with
  | Ok r =>
      (status_code r =? 200)%Z &&
      match d with
      | JSON =>
          match json_loads lib (body r) with
          | Some v => json_truthy v
          | None => false
          end
      | _ => str_truthy (body r)
      end
  | Raise _ => false
  end.

(** The exception that leaves the writer of [d] when it is called on what
    was fetched, if any. *)
Definition save_exn (d : dataset) : option exn :=
  match http_get env (url_of d) with
  | Ok r =>
      match d with
      | CSV =>
          match parse_csv lib (body r) with
          | Raise e => Some e
          | Ok _ =>
              if writable env (data_file d) then None
              else Some (PermissionError (data_file d))
          end
      | _ =>
          if writable env (data_file d) then None
          else Some (PermissionError (data_file d))
      end
  | Raise _ => None
  end.

(** The exception that leaves the pipeline of [d], if any. *)
Definition block_exn (d : dataset) : option exn :=
  match fetch_exn d with
  | Some e => Some e
  | None => if payload_truthy d then save_exn d else None
  end.

Definition block_result (d : dataset) : result unit :=
  match block_exn d with
  | Some e => Raise e
  | None => Ok tt
  end.

(** The functions the pipeline of [d] enters. *)
Definition block_calls (d : dataset) : list call :=
  Fetch d ::
  if payload_truthy d then
    Save d :: match save_exn d with None => [Process d] | Some _ => [] end
  else [].

(** The run over a list of datasets stops at the first pipeline that an
    exception leaves. *)
Fixpoint run_result (ds : list dataset) : result unit :=
  match ds with
  | [] => Ok tt
  | d :: ds' =>
      match block_exn d with
      | Some e => Raise e
      | None => run_result ds'
      end
  end.

Fixpoint run_calls (ds : list dataset) : list call :=
  match ds with
  | [] => []
  | d :: ds' =>
      block_calls d ++
      match block_exn d with
      | Some _ => []
      | None => run_calls ds'
      end
  end.

Definition all_datasets : list dataset := [Text; CSV; Spreadsheet; JSON].

End Pipelines.


Definition is_mapping (v : json) : bool :=
  match v with JObj _ => true | _ => false end.

Definition head_char (s : string) : option ascii :=
  match s with
  | EmptyString => None
  | String c _ => Some c
  end.

(** ** Contracts of the fetchers and frames of the runs *)

(** What a fetcher of text or bytes does with the answer to its request: it
    returns the body exactly when the status is 200, returns [None] and
    prints one line on any other status, lets a transport error through, and
    leaves the files alone. *)
Definition fetch_contract (env : environment) (fetch : string -> M (option string)) : Prop :=
  forall url s,
    let out := fetch url s in
    fs (snd out) = fs s
    /\ (forall b, fst out = Ok (Some b) <->
                  exists r, http_get env url = Ok r /\ status_code r = 200%Z /\ body r = b)
    /\ (fst out = Ok None <->
        exists r, http_get env url = Ok r /\ status_code r <> 200%Z)
    /\ (forall e, fst out = Raise e <-> http_get env url = Raise e)
    /\ (fst out = Ok None -> exists line, console (snd out) = console s ++ [line])
    /\ (fst out <> Ok None -> console (snd out) = console s).

(** [len(v)] is defined. *)
Definition has_len (v : json) : bool :=
  match py_len v with Ok _ => true | Raise _ => false end.

(** [only_touches paths m]: whatever the state, [m] leaves every file
    outside [paths] as it was. *)
Definition only_touches {A} (paths : list string) (m : M A) : Prop :=
  forall s p, p ∉ paths -> fs (snd (m s)) !! p = fs s !! p.

(** The eight files of a run. *)
Definition data_files : list string :=
  [ "data/data.txt"; "data/processed_text.txt";
    "data/data.csv"; "data/processed_csv.txt";
    "data/data.xls"; "data/processed_excel.txt";
    "data/data.json"; "data/processed_json.txt" ].

(** Every function a run can enter, in the order of [main]. *)
Definition all_calls : list call :=
  [ Fetch Text; Save Text; Process Text;
    Fetch CSV; Save CSV; Process CSV;
    Fetch Spreadsheet; Save Spreadsheet; Process Spreadsheet;
    Fetch JSON; Save JSON; Process JSON ].

#[global] Instance dataset_eq_dec : EqDecision dataset.
Proof. solve_decision. Defined.

#[global] Instance call_eq_dec : EqDecision call.
Proof. solve_decision. Defined.

(** * A small world to run the script in *)

(** Concrete codecs, servers and file stores for the examples below.  The
    codecs cover plain cases only: CSV without quoting, JSON arrays of
    integers, a "workbook" laid out like the CSV text. *)
Module Demo.

Fixpoint split_on (sep : ascii) (cur : string) (s : string) : list string :=
  match s with
  | EmptyString => [cur]
  | String c s' =>
      if Ascii.eqb c sep then cur :: split_on sep "" s'
      else split_on sep (cur +:+ String c "") s'
  end.

Definition fields (text : string) : list (list string) :=
  split_on "," "" <$> List.filter (fun l => negb (String.eqb l "")) (split_on "010" "" text).

Fixpoint join (sep : string) (l : list string) : string :=
  match l with
  | [] => ""
  | [x] => x
  | x :: l' => x +:+ sep +:+ join sep l'
  end.

Definition unfields (grid : list (list string)) : string :=
  cat ((fun row => join "," row +:+ nl) <$> grid).

Definition digit (c : ascii) : option Z :=
  let n := Z.of_nat (nat_of_ascii c) in
  if ((48 <=? n) && (n <=? 57))%Z then Some (n - 48)%Z else None.

Fixpoint digits (acc : Z) (s : string) : option Z :=
  match s with
  | EmptyString => Some acc
  | String c s' =>
      match digit c with
      | Some d => digits (10 * acc + d) s'
      | None => None
      end
  end.

Definition number (s : string) : option Z :=
  match s with
  | EmptyString => None
  | String "-" s' => Z.opp <$> (match s' with EmptyString => None | _ => digits 0 s' end)
  | _ => digits 0 s
  end.

Definition cell_of (s : string) : cell :=
  match s with
  | EmptyString => CNull
  | _ => match number s with Some z => CInt z | None => CStr s end
  end.

(** The exact decimal expansion of a float. *)
Definition decimal (f : float) : string :=
  match Prim2SF f with
  | S754_zero _ => "0.0"
  | S754_infinity s => if s then "-inf" else "inf"
  | S754_nan => "nan"
  | S754_finite s m e =>
      (if s then "-" else "") +:+
      match e with
      | Zneg k =>
          let scale := Z.pow 2 (Zpos k) in
          let frac := ((Zpos m mod scale) * Z.pow 5 (Zpos k))%Z in
          let ds := pretty frac in
          let padded := cat (replicate (Pos.to_nat k - String.length ds) "0") +:+ ds in
          let fix strip (fuel : nat) (t : list ascii) : list ascii :=
            match fuel, t with
            | S fuel', "0"%char :: (x :: r) => strip fuel' (x :: r)
            | _, _ => t
            end in
          pretty (Zpos m / scale)%Z +:+ "." +:+
          string_of_list_ascii
            (rev (strip (String.length padded) (rev (list_ascii_of_string padded))))
      | _ => pretty (Zpos m * Z.pow 2 e)%Z +:+ ".0"
      end
  end.

Definition show_cell (c : cell) : string :=
  match c with
  | CNull => ""
  | CInt z => pretty z
  | CFloat f => if PrimFloat.is_nan f then "" else decimal f
  | CBool b => if b then "True" else "False"
  | CStr s => s
  end.

Definition show_scalar (v : scalar) : string :=
  match v with
  | SInt z => pretty z
  | SFloat f => decimal f
  end.

Definition show_tuple (row : list cell) : string :=
  "(" +:+ join ", " ((fun c => match c with
                               | CNull => "nan"
                               | CStr s => "'" +:+ s +:+ "'"
                               | CFloat f => decimal f
                               | _ => show_cell c
                               end) <$> row)
  +:+ match row with [_] => ",)" | _ => ")" end.

Definition show_json (v : json) : string :=
  match v with
  | JNull => "None"
  | JBool b => if b then "True" else "False"
  | JInt z => pretty z
  | JFloat f => decimal f
  | JStr s => s
  | JArr l => "[" +:+ join ", " ((fun x => match x with JInt z => pretty z | _ => "?" end) <$> l) +:+ "]"
  | JObj _ => "{}"
  end.

Definition trim_left (s : string) : string :=
  match s with String " " s' => s' | _ => s end.

(** Integers, arrays of integers such as [[1, 2, 3]], and the empty object. *)
Definition loads (s : string) : option json :=
  match s with
  | String "[" rest =>
      match rev (list_ascii_of_string rest) with
      | "]"%char :: inner =>
          match rev inner with
          | [] => Some (JArr [])
          | _ =>
              JArr <$> mapM (fun t => JInt <$> number (trim_left t))
                            (split_on "," "" (string_of_list_ascii (rev inner)))
          end
      | _ => None
      end
  | String "{" (String "}" EmptyString) => Some (JObj [])
  | _ => JInt <$> number s
  end.

Definition lib : library := {|
  json_loads := loads;
  json_dumps := show_json;
  csv_tokenize := fields;
  parse_cell := cell_of;
  csv_join := unfields;
  render_cell := show_cell;
  excel_table := fun content =>
    match fields content with
    | [] => Raise (LibraryError "Excel file format cannot be determined")
    | header :: rows => Ok (header, (fun r : list string => cell_of <$> r) <$> rows)
    end;
  str_scalar := show_scalar;
  str_tuple := show_tuple;
  str_json := show_json
|}.

Definition answer (status : Z) (content : string) : result response :=
  Ok {| status_code := status; body := content |}.

(** Every URL answers with status 200. *)
Definition online : environment := {|
  http_get := fun url =>
    if String.eqb url txt_url then answer 200 ("the cat" +:+ nl +:+ "the  hat ")
    else if String.eqb url csv_url
      then answer 200 ("name,age" +:+ nl +:+ "ann,31" +:+ nl +:+ "bob,27" +:+ nl)
    else if String.eqb url excel_url
      then answer 200 ("x,y" +:+ nl +:+ "1,2" +:+ nl +:+ "3,4" +:+ nl)
    else if String.eqb url json_url then answer 200 "[1, 2, 3]"
    else Raise (ConnectionError url);
  writable := fun _ => true
|}.

(** No URL can be reached. *)
Definition offline : environment := {|
  http_get := fun url => Raise (ConnectionError url);
  writable := fun _ => true
|}.


Definition fresh : state := {| fs := ∅; console := []; calls := [] |}.

(** A store that holds [content] under [path]. *)
Definition holding (path content : string) : state :=
  {| fs := {[ path := content ]}; console := []; calls := [] |}.

(** The same table stored twice, as CSV text and as a workbook. *)
Definition table_text : string :=
  "name,x,y" +:+ nl +:+ "ann,1,2" +:+ nl +:+ "bob,3,4" +:+ nl.

Definition two_tables : state :=
  {| fs := {[ "data/data.csv" := table_text; "data/data.xls" := table_text ]};
     console := [];
     calls := [] |}.

End Demo.

(** More worlds: servers that refuse, a read-only disk, and a library that
    reads and writes one JSON object. *)
Module Worlds.

(** Every URL answers 404 with an error page. *)
Definition refusing : environment := {|
  http_get := fun _ => Demo.answer 404 "Not Found";
  writable := fun _ => true
|}.

(** Servers as in [Demo.online], and no file can be opened for writing. *)
Definition read_only : environment := {|
  http_get := http_get Demo.online;
  writable := fun _ => false
|}.

Definition quote : string := String (Ascii.ascii_of_nat 34) "".

(** The document [{"a": 1, "b": 2}] and its decoded value. *)
Definition object_text : string :=
  "{" +:+ quote +:+ "a" +:+ quote +:+ ": 1, " +:+ quote +:+ "b" +:+ quote +:+ ": 2}".

Definition object_value : json := JObj [("a", JInt 1); ("b", JInt 2)].

(** [Demo.lib], which also decodes [object_text] and encodes its value. *)
Definition lib : library := {|
  json_loads := fun s =>
    if String.eqb s object_text then Some object_value else Demo.loads s;
  json_dumps := fun v =>
    match v with
    | JObj (("a", JInt 1%Z) :: ("b", JInt 2%Z) :: []) => object_text
    | _ => Demo.show_json v
    end;
  csv_tokenize := csv_tokenize Demo.lib;
  parse_cell := parse_cell Demo.lib;
  csv_join := csv_join Demo.lib;
  render_cell := render_cell Demo.lib;
  excel_table := fun content =>
    if String.eqb content "corrupt" then Raise (LibraryError "Unsupported format, or corrupt file")
    else excel_table Demo.lib content;
  str_scalar := str_scalar Demo.lib;
  str_tuple := str_tuple Demo.lib;
  str_json := str_json Demo.lib
|}.

(** The JSON URL answers with [object_text], the spreadsheet URL with bytes
    that are no workbook, the others as in [Demo.online]. *)
Definition objects : environment := {|
  http_get := fun url =>
    if String.eqb url json_url then Demo.answer 200 object_text
    else if String.eqb url excel_url then Demo.answer 200 "corrupt"
    else http_get Demo.online url;
  writable := fun _ => true
|}.

(** The CSV URL answers with one blank line, the others as in [Demo.online]. *)
Definition blank_csv : environment := {|
  http_get := fun url =>
    if String.eqb url csv_url then Demo.answer 200 nl else http_get Demo.online url;
  writable := fun _ => true
|}.

End Worlds.

(** * Examples *)

Example split_example :
  split ("  the cat" +:+ nl +:+ "the  hat ") = ["the"; "cat"; "the"; "hat"].
Proof. reflexivity. Qed.

Example whitespace_tokens_example :
  whitespace_tokens ("  the cat" +:+ nl +:+ "the  hat ") = ["the"; "cat"; "the"; "hat"].
Proof. reflexivity. Qed.

Example count_words_example :
  count_words ["the"; "cat"; "the"; "hat"] = [("the", 2); ("cat", 1); ("hat", 1)].
Proof. reflexivity. Qed.

Example unique_word_count_example :
  unique_word_count ["the"; "cat"; "the"; "hat"] = 3.
Proof. reflexivity. Qed.

Example stats_1234 :
  Pandas.column_metrics (Pandas.Int64 [1; 2; 3; 4]%Z)
  = [ ("Mean", Pandas.SFloat 2.5%float);
      ("Median", Pandas.SFloat 2.5%float);
      ("Standard Deviation", Pandas.SFloat 0x1.4a7e9cb8a3491p+0%float);
      ("Max", Pandas.SInt 4);
      ("Min", Pandas.SInt 1) ].
Proof. vm_compute. reflexivity. Qed.

Example stats_5 :
  Pandas.column_metrics (Pandas.Int64 [5]%Z)
  = [ ("Mean", Pandas.SFloat 5%float);
      ("Median", Pandas.SFloat 5%float);
      ("Standard Deviation", Pandas.SFloat nan);
      ("Max", Pandas.SInt 5);
      ("Min", Pandas.SInt 5) ].
Proof. vm_compute. reflexivity. Qed.

Example read_table_example :
  Pandas.read_table ["name"; "age"; "score"]
    [ [Pandas.CStr "ann"; Pandas.CInt 31; Pandas.CFloat 1.5%float];
      [Pandas.CStr "bob"; Pandas.CInt 27; Pandas.CNull] ]
  = Ok {| Pandas.index_len := 2;
          Pandas.columns :=
            [ ("name", Pandas.Object [Pandas.CStr "ann"; Pandas.CStr "bob"]);
              ("age", Pandas.Int64 [31; 27]%Z);
              ("score", Pandas.Float64 [1.5%float; nan]) ] |}.
Proof. vm_compute. reflexivity. Qed.

(** * Running the monad *)

Lemma append_nil_r (s : string) : s +:+ "" = s.
Proof.
  induction s as [|c s IH]; [done|].
  change (String c (s +:+ "") = String c s). by rewrite IH.
Qed.

Lemma append_assoc (a b c : string) : (a +:+ b) +:+ c = a +:+ (b +:+ c).
Proof.
  induction a as [|x a IH]; [done|].
  change (String x ((a +:+ b) +:+ c) = String x (a +:+ (b +:+ c))). by rewrite IH.
Qed.

Lemma cat_app (l1 l2 : list string) : cat (l1 ++ l2) = cat l1 +:+ cat l2.
Proof.
  induction l1 as [|x l1 IH]; simpl; [done|].
  by rewrite IH, append_assoc.
Qed.

Lemma state_eta (s : state) :
  {| fs := fs s; console := console s; calls := calls s |} = s.
Proof. by destruct s. Qed.

Lemma set_fs_id (s : state) (f : gmap string string -> gmap string string) :
  f (fs s) = fs s -> set_fs f s = s.
Proof. intros H. unfold set_fs. rewrite H. apply state_eta. Qed.

Lemma bind_run {A B} (m : M A) (k : A -> M B) (s s' : state) (a : A) :
  m s = (Ok a, s') -> (m ≫= k) s = k a s'.
Proof. intros H. unfold mbind, M_bind. by rewrite H. Qed.

Lemma bind_raise {A B} (m : M A) (k : A -> M B) (s s' : state) (e : exn) :
  m s = (Raise e, s') -> (m ≫= k) s = (Raise e, s').
Proof. intros H. unfold mbind, M_bind. by rewrite H. Qed.

(** Forward steps: run the first computation, go on with the rest. *)
Lemma bind_step {A B} (m : M A) (k : A -> M B) (s s1 : state) (a : A) R :
  m s = (Ok a, s1) -> k a s1 = R -> (m ≫= k) s = R.
Proof. intros H <-. by apply bind_run. Qed.

Lemma bind_stop {A B} (m : M A) (k : A -> M B) (s s1 : state) (e : exn) R :
  m s = (Raise e, s1) -> (Raise e, s1) = R -> (m ≫= k) s = R.
Proof. intros H <-. by apply bind_raise. Qed.

Lemma try_ok {A} (m : M A) (h : exn -> M A) (s s1 : state) (a : A) R :
  m s = (Ok a, s1) -> (Ok a, s1) = R -> try_except m h s = R.
Proof. intros H <-. unfold try_except. by rewrite H. Qed.

Lemma try_raise {A} (m : M A) (h : exn -> M A) (s s1 : state) (e : exn) R :
  m s = (Raise e, s1) -> h e s1 = R -> try_except m h s = R.
Proof. intros H <-. unfold try_except. by rewrite H. Qed.

Lemma read_file_some (path : string) (s : state) (c : string) :
  fs s !! path = Some c -> read_file path s = (Ok c, s).
Proof. intros H. unfold read_file. by rewrite H. Qed.

Lemma read_file_none (path : string) (s : state) :
  fs s !! path = None -> read_file path s = (Raise (FileNotFoundError path), s).
Proof. intros H. unfold read_file. by rewrite H. Qed.

(** ** Writing to an open file *)

Lemma writes_file_write (path data : string) :
  writes path (file_write path data) data (Ok tt).
Proof.
  intros s c Hc. unfold file_write, set_fs. simpl.
  by rewrite (alter_alt_Some _ _ _ _ Hc).
Qed.

Lemma writes_ret (path : string) : writes path (mret tt) "" (Ok tt).
Proof.
  intros s c Hc. unfold mret, M_ret. f_equal. symmetry.
  apply set_fs_id. rewrite append_nil_r. by apply insert_id.
Qed.

Lemma writes_raise {A} (path : string) (e : exn) (k : A -> M unit) :
  writes path (lift (Raise e) ≫= k) "" (Raise e).
Proof.
  intros s c Hc. unfold mbind, M_bind, lift. f_equal. symmetry.
  apply set_fs_id. rewrite append_nil_r. by apply insert_id.
Qed.

Lemma writes_lift_ok {A} (path : string) (a : A) (k : A -> M unit) data r :
  writes path (k a) data r -> writes path (lift (Ok a) ≫= k) data r.
Proof. intros H s c Hc. unfold mbind, M_bind, lift. by apply H. Qed.

Lemma writes_seq (path : string) (m1 m2 : M unit) (d1 d2 : string) (r : result unit) :
  writes path m1 d1 (Ok tt) -> writes path m2 d2 r ->
  writes path (m1;; m2) (d1 +:+ d2) r.
Proof.
  intros H1 H2 s c Hc.
  rewrite (bind_run _ _ _ _ _ (H1 s c Hc)).
  rewrite (H2 _ (c +:+ d1)); [|simpl; by rewrite lookup_insert_eq].
  unfold set_fs; simpl. by rewrite insert_insert_eq, append_assoc.
Qed.

Lemma writes_seq_raise (path : string) (m1 m2 : M unit) (d1 : string) (e : exn) :
  writes path m1 d1 (Raise e) -> writes path (m1;; m2) d1 (Raise e).
Proof. intros H1 s c Hc. by rewrite (bind_raise _ _ _ _ _ (H1 s c Hc)). Qed.

Lemma writes_for_each {A} (path : string) (l : list A) (f : A -> M unit) (g : A -> string) :
  (forall x, writes path (f x) (g x) (Ok tt)) ->
  writes path (for_each l f) (cat (g <$> l)) (Ok tt).
Proof.
  intros Hf. induction l as [|x l IH]; simpl.
  - apply writes_ret.
  - apply writes_seq; [apply Hf | apply IH].
Qed.

Section Runs.
Context (lib : library) (env : environment).

(** The [with open(path, 'w') as file:] block around a body that writes. *)
Lemma with_open_w (path : string) (body : M unit) (data : string) (r : result unit) (s : state) :
  writes path body data r ->
  (open_w env path;; body) s =
    if writable env path then (r, set_fs (insert path data) s)
    else (Raise (PermissionError path), s).
Proof.
  intros Hb. unfold mbind, M_bind, open_w.
  destruct (writable env path); [|done].
  rewrite (Hb _ ""); [|simpl; by rewrite lookup_insert_eq].
  unfold set_fs; simpl. by rewrite insert_insert_eq.
Qed.

End Runs.

(** * What each function leaves behind *)

Section Effects.
Context (lib : library) (env : environment).

Lemma writes_metrics (path : string) (metrics : dict scalar) :
  writes path (write_metrics lib path metrics) (metrics_lines lib metrics) (Ok tt).
Proof.
  unfold write_metrics, metrics_lines. apply writes_for_each.
  intros [key value]. apply writes_file_write.
Qed.

Lemma process_text_data_run (folder filename processed : string) (s : state) :
  process_text_data env folder filename processed s
  = (Ok tt, apply_effect (Process Text)
              (process_text_effect env folder filename processed
                 (fs s !! path_join folder filename)) s).
Proof.
  unfold process_text_data, process_text_effect.
  eapply bind_step; [reflexivity|].
  set (out := path_join folder processed).
  destruct (fs s !! path_join folder filename) as [text|] eqn:Hin.
  - assert (Hbody : writes out
        (file_write out ("Total words: " +:+ pretty (length (split text)) +:+ nl);;
         file_write out ("Unique words: " +:+ pretty (unique_word_count (split text)) +:+ nl);;
         file_write out ("Word frequencies:" +:+ nl);;
         for_each (count_words (split text)) (fun '(word, freq) =>
           file_write out (word +:+ ": " +:+ pretty freq +:+ nl)))
        (text_report text) (Ok tt)).
    { unfold text_report.
      repeat (apply writes_seq; [apply writes_file_write|]).
      apply writes_for_each. intros [word freq]. apply writes_file_write. }
    destruct (writable env out) eqn:Hw.
    + eapply try_ok; [|reflexivity].
      eapply bind_step; [by apply read_file_some|].
      eapply bind_step;
        [rewrite (with_open_w env out _ _ _ _ Hbody); by rewrite Hw | reflexivity].
    + eapply try_raise;
        [eapply bind_step; [by apply read_file_some|];
         eapply bind_stop;
           [rewrite (with_open_w env out _ _ _ _ Hbody); by rewrite Hw | reflexivity]
        |reflexivity].
  - eapply try_raise;
      [eapply bind_stop; [by apply read_file_none|reflexivity] | reflexivity].
Qed.

Lemma read_csv_run (path : string) (s : state) :
  read_csv lib path s
  = (match fs s !! path with
     | Some c => parse_csv lib c
     | None => Raise (FileNotFoundError path)
     end, s).
Proof.
  unfold read_csv, read_file, mbind, M_bind, lift.
  by destruct (fs s !! path).
Qed.

Lemma read_excel_run (path : string) (s : state) :
  read_excel lib path s
  = (match fs s !! path with
     | Some c => parse_excel lib c
     | None => Raise (FileNotFoundError path)
     end, s).
Proof.
  unfold read_excel, read_file, mbind, M_bind, lift.
  by destruct (fs s !! path).
Qed.

Lemma json_load_run (path : string) (s : state) :
  json_load lib path s
  = (match fs s !! path with
     | Some c =>
         match json_loads lib c with
         | Some v => Ok v
         | None => Raise JSONDecodeError
         end
     | None => Raise (FileNotFoundError path)
     end, s).
Proof.
  unfold json_load, read_file, mbind, M_bind.
  destruct (fs s !! path) as [c|]; [|done].
  by destruct (json_loads lib c).
Qed.

Lemma process_csv_data_run (folder filename processed : string) (s : state) :
  process_csv_data lib env folder filename processed s
  = (Ok tt, apply_effect (Process CSV)
              (process_csv_effect lib env folder filename processed
                 (fs s !! path_join folder filename)) s).
Proof.
  unfold process_csv_data, process_csv_effect.
  eapply bind_step; [reflexivity|].
  set (out := path_join folder processed).
  destruct (fs s !! path_join folder filename) as [c|] eqn:Hin.
  - destruct (parse_csv lib c) as [df|e] eqn:Hparse.
    + assert (Hbody : writes out
          (file_write out ("Rows as tuples:" +:+ nl);;
           for_each (to_numpy df) (fun row => file_write out (str_tuple lib row +:+ nl));;
           file_write out (nl +:+ "Statistics for numeric columns:" +:+ nl);;
           for_each (numeric_stats df) (fun '(column, metrics) =>
             file_write out (nl +:+ column +:+ ":" +:+ nl);;
             write_metrics lib out metrics))
          (csv_report lib df) (Ok tt)).
      { unfold csv_report.
        apply writes_seq; [apply writes_file_write|].
        apply writes_seq; [apply writes_for_each; intros row; apply writes_file_write|].
        apply writes_seq; [apply writes_file_write|].
        apply writes_for_each. intros [column metrics].
        apply writes_seq; [apply writes_file_write | apply writes_metrics]. }
      destruct (writable env out) eqn:Hw.
      * eapply try_ok; [|reflexivity].
        eapply bind_step; [rewrite read_csv_run; simpl; by rewrite Hin, Hparse|].
        eapply bind_step;
          [rewrite (with_open_w env out _ _ _ _ Hbody); by rewrite Hw | reflexivity].
      * eapply try_raise;
          [eapply bind_step; [rewrite read_csv_run; simpl; by rewrite Hin, Hparse|];
           eapply bind_stop;
             [rewrite (with_open_w env out _ _ _ _ Hbody); by rewrite Hw | reflexivity]
          |reflexivity].
    + eapply try_raise;
        [eapply bind_stop; [rewrite read_csv_run; simpl; by rewrite Hin, Hparse|reflexivity]
        |reflexivity].
  - eapply try_raise;
      [eapply bind_stop; [rewrite read_csv_run; simpl; by rewrite Hin|reflexivity]
      |reflexivity].
Qed.

Lemma process_excel_data_run (folder filename processed : string) (s : state) :
  process_excel_data lib env folder filename processed s
  = (Ok tt, apply_effect (Process Spreadsheet)
              (process_excel_effect lib env folder filename processed
                 (fs s !! path_join folder filename)) s).
Proof.
  unfold process_excel_data, process_excel_effect.
  eapply bind_step; [reflexivity|].
  set (out := path_join folder processed).
  destruct (fs s !! path_join folder filename) as [c|] eqn:Hin.
  - destruct (parse_excel lib c) as [df|e] eqn:Hparse.
    + assert (Hbody : writes out
          (for_each (numeric_stats df) (fun '(column, metrics) =>
             file_write out ("Statistics for " +:+ column +:+ ":" +:+ nl);;
             write_metrics lib out metrics))
          (excel_report lib df) (Ok tt)).
      { unfold excel_report.
        apply writes_for_each. intros [column metrics].
        apply writes_seq; [apply writes_file_write | apply writes_metrics]. }
      destruct (writable env out) eqn:Hw.
      * eapply try_ok; [|reflexivity].
        eapply bind_step; [rewrite read_excel_run; simpl; by rewrite Hin, Hparse|].
        eapply bind_step;
          [rewrite (with_open_w env out _ _ _ _ Hbody); by rewrite Hw | reflexivity].
      * eapply try_raise;
          [eapply bind_step; [rewrite read_excel_run; simpl; by rewrite Hin, Hparse|];
           eapply bind_stop;
             [rewrite (with_open_w env out _ _ _ _ Hbody); by rewrite Hw | reflexivity]
          |reflexivity].
    + eapply try_raise;
        [eapply bind_stop; [rewrite read_excel_run; simpl; by rewrite Hin, Hparse|reflexivity]
        |reflexivity].
  - eapply try_raise;
      [eapply bind_stop; [rewrite read_excel_run; simpl; by rewrite Hin|reflexivity]
      |reflexivity].
Qed.

Lemma process_json_data_run (folder filename processed : string) (s : state) :
  process_json_data lib env folder filename processed s
  = (Ok tt, apply_effect (Process JSON)
              (process_json_effect lib env folder filename processed
                 (fs s !! path_join folder filename)) s).
Proof.
  unfold process_json_data, process_json_effect.
  eapply bind_step; [reflexivity|].
  set (out := path_join folder processed).
  destruct (fs s !! path_join folder filename) as [c|] eqn:Hin.
  - destruct (json_loads lib c) as [data|] eqn:Hparse.
    + destruct (py_len data) as [item_count|e] eqn:Hlen.
      * destruct (writable env out) eqn:Hw.
        -- destruct (py_items data) as [items|e] eqn:Hitems.
           ++ assert (Hbody : writes out
                (file_write out ("Item count: " +:+ pretty item_count +:+ nl);;
                 file_write out ("JSON data summary:" +:+ nl);;
                 items ← lift (py_items data);
                 for_each items (fun '(key, value) =>
                   file_write out (key +:+ ": " +:+ str_json lib value +:+ nl)))
                (json_report item_count (json_entries lib items)) (Ok tt)).
              { unfold json_report, json_entries.
                apply writes_seq; [apply writes_file_write|].
                apply writes_seq; [apply writes_file_write|].
                rewrite Hitems. apply writes_lift_ok.
                apply writes_for_each. intros [key value]. apply writes_file_write. }
              eapply try_ok; [|reflexivity].
              eapply bind_step; [rewrite json_load_run; simpl; by rewrite Hin, Hparse|].
              eapply bind_step; [unfold lift; by rewrite Hlen|].
              eapply bind_step;
                [rewrite (with_open_w env out _ _ _ _ Hbody); by rewrite Hw | reflexivity].
           ++ assert (Hbody : writes out
                (file_write out ("Item count: " +:+ pretty item_count +:+ nl);;
                 file_write out ("JSON data summary:" +:+ nl);;
                 items ← lift (py_items data);
                 for_each items (fun '(key, value) =>
                   file_write out (key +:+ ": " +:+ str_json lib value +:+ nl)))
                (json_report item_count "") (Raise e)).
              { unfold json_report.
                apply writes_seq; [apply writes_file_write|].
                apply writes_seq; [apply writes_file_write|].
                rewrite Hitems. apply writes_raise. }
              eapply try_raise;
                [eapply bind_step; [rewrite json_load_run; simpl; by rewrite Hin, Hparse|];
                 eapply bind_step; [unfold lift; by rewrite Hlen|];
                 eapply bind_stop;
                   [rewrite (with_open_w env out _ _ _ _ Hbody); by rewrite Hw | reflexivity]
                |reflexivity].
        -- eapply try_raise;
             [eapply bind_step; [rewrite json_load_run; simpl; by rewrite Hin, Hparse|];
              eapply bind_step; [unfold lift; by rewrite Hlen|];
              eapply bind_stop; [|reflexivity];
              eapply bind_stop; [unfold open_w; by rewrite Hw|reflexivity]
             |reflexivity].
      * eapply try_raise;
          [eapply bind_step; [rewrite json_load_run; simpl; by rewrite Hin, Hparse|];
           eapply bind_stop; [unfold lift; by rewrite Hlen|reflexivity]
          |reflexivity].
    + eapply try_raise;
        [eapply bind_stop; [rewrite json_load_run; simpl; by rewrite Hin, Hparse|reflexivity]
        |reflexivity].
  - eapply try_raise;
      [eapply bind_stop; [rewrite json_load_run; simpl; by rewrite Hin|reflexivity]
      |reflexivity].
Qed.

Lemma save_text_run (filename content : string) (s : state) :
  save_text env filename content s
  = let path := path_join data_path filename in
    if writable env path
    then (Ok tt, apply_effect (Save Text) (saved "Text" path content) s)
    else (Raise (PermissionError path), log (Save Text) s).
Proof.
  unfold save_text. cbv zeta.
  eapply bind_step; [reflexivity|].
  set (path := path_join data_path filename).
  pose proof (writes_file_write path content) as Hbody.
  destruct (writable env path) eqn:Hw.
  - eapply bind_step;
      [rewrite (with_open_w env path _ _ _ _ Hbody); by rewrite Hw | reflexivity].
  - eapply bind_stop;
      [rewrite (with_open_w env path _ _ _ _ Hbody); by rewrite Hw | reflexivity].
Qed.

Lemma save_excel_run (filename content : string) (s : state) :
  save_excel env filename content s
  = let path := path_join data_path filename in
    if writable env path
    then (Ok tt, apply_effect (Save Spreadsheet) (saved "Excel" path content) s)
    else (Raise (PermissionError path), log (Save Spreadsheet) s).
Proof.
  unfold save_excel. cbv zeta.
  eapply bind_step; [reflexivity|].
  set (path := path_join data_path filename).
  pose proof (writes_file_write path content) as Hbody.
  destruct (writable env path) eqn:Hw.
  - eapply bind_step;
      [rewrite (with_open_w env path _ _ _ _ Hbody); by rewrite Hw | reflexivity].
  - eapply bind_stop;
      [rewrite (with_open_w env path _ _ _ _ Hbody); by rewrite Hw | reflexivity].
Qed.

Lemma save_json_run (filename : string) (content : json) (s : state) :
  save_json lib env filename content s
  = let path := path_join data_path filename in
    if writable env path
    then (Ok tt, apply_effect (Save JSON) (saved "JSON" path (json_dumps lib content)) s)
    else (Raise (PermissionError path), log (Save JSON) s).
Proof.
  unfold save_json. cbv zeta.
  eapply bind_step; [reflexivity|].
  set (path := path_join data_path filename).
  pose proof (writes_file_write path (json_dumps lib content)) as Hbody.
  destruct (writable env path) eqn:Hw.
  - eapply bind_step;
      [rewrite (with_open_w env path _ _ _ _ Hbody); by rewrite Hw | reflexivity].
  - eapply bind_stop;
      [rewrite (with_open_w env path _ _ _ _ Hbody); by rewrite Hw | reflexivity].
Qed.

Lemma save_csv_run (filename content : string) (s : state) :
  save_csv lib env filename content s
  = let path := path_join data_path filename in
    match parse_csv lib content with
    | Raise e => (Raise e, log (Save CSV) s)
    | Ok df =>
        if writable env path
        then (Ok tt, apply_effect (Save CSV)
                       (saved "CSV" path (csv_join lib (to_csv_fields lib df))) s)
        else (Raise (PermissionError path), log (Save CSV) s)
    end.
Proof.
  unfold save_csv. cbv zeta.
  eapply bind_step; [reflexivity|].
  set (path := path_join data_path filename).
  destruct (parse_csv lib content) as [df|e] eqn:Hparse.
  - eapply bind_step; [reflexivity|].
    pose proof (writes_file_write path (csv_join lib (to_csv_fields lib df))) as Hbody.
    unfold to_csv.
    destruct (writable env path) eqn:Hw.
    + eapply bind_step;
        [rewrite (with_open_w env path _ _ _ _ Hbody); by rewrite Hw | reflexivity].
    + eapply bind_stop;
        [rewrite (with_open_w env path _ _ _ _ Hbody); by rewrite Hw | reflexivity].
  - eapply bind_stop; reflexivity.
Qed.

Lemma fetch_txt_data_run (url : string) (s : state) :
  fetch_txt_data env url s
  = match http_get env url with
    | Raise e => (Raise e, log (Fetch Text) s)
    | Ok r =>
        if (status_code r =? 200)%Z then (Ok (Some (body r)), log (Fetch Text) s)
        else (Ok None, refused "text" r (Fetch Text) s)
    end.
Proof.
  unfold fetch_txt_data, requests_get, lift, mbind, M_bind, log_call.
  destruct (http_get env url) as [r|e]; [|done].
  by destruct (status_code r =? 200)%Z.
Qed.

Lemma fetch_csv_data_run (url : string) (s : state) :
  fetch_csv_data env url s
  = match http_get env url with
    | Raise e => (Raise e, log (Fetch CSV) s)
    | Ok r =>
        if (status_code r =? 200)%Z then (Ok (Some (body r)), log (Fetch CSV) s)
        else (Ok None, refused "CSV" r (Fetch CSV) s)
    end.
Proof.
  unfold fetch_csv_data, requests_get, lift, mbind, M_bind, log_call.
  destruct (http_get env url) as [r|e]; [|done].
  by destruct (status_code r =? 200)%Z.
Qed.

Lemma fetch_excel_data_run (url : string) (s : state) :
  fetch_excel_data env url s
  = match http_get env url with
    | Raise e => (Raise e, log (Fetch Spreadsheet) s)
    | Ok r =>
        if (status_code r =? 200)%Z then (Ok (Some (body r)), log (Fetch Spreadsheet) s)
        else (Ok None, refused "Excel" r (Fetch Spreadsheet) s)
    end.
Proof.
  unfold fetch_excel_data, requests_get, lift, mbind, M_bind, log_call.
  destruct (http_get env url) as [r|e]; [|done].
  by destruct (status_code r =? 200)%Z.
Qed.

Lemma fetch_json_data_run (url : string) (s : state) :
  fetch_json_data lib env url s
  = match http_get env url with
    | Raise e => (Raise e, log (Fetch JSON) s)
    | Ok r =>
        if (status_code r =? 200)%Z then
          match json_loads lib (body r) with
          | Some v => (Ok (Some v), log (Fetch JSON) s)
          | None => (Raise JSONDecodeError, log (Fetch JSON) s)
          end
        else (Ok None, refused "JSON" r (Fetch JSON) s)
    end.
Proof.
  unfold fetch_json_data, requests_get, lift, mbind, M_bind, log_call.
  destruct (http_get env url) as [r|e]; [|done].
  destruct (status_code r =? 200)%Z; [|done].
  by destruct (json_loads lib (body r)).
Qed.

End Effects.

(** * The four pipelines of [main] *)

Lemma fs_apply_effect (c : call) (e : effect) (s : state) :
  fs (apply_effect c e s) = effect_map e ∪ fs s.
Proof.
  unfold apply_effect, effect_map; simpl.
  destruct (eff_write e) as [[path data]|].
  - apply insert_union_singleton_l.
  - by rewrite (left_id_L ∅ (∪)).
Qed.

Lemma lookup_apply_effect (c : call) (path data line : string) (s : state) :
  fs (apply_effect c {| eff_write := Some (path, data); eff_line := line |} s) !! path
  = Some data.
Proof. unfold apply_effect; simpl. apply lookup_insert_eq. Qed.

Lemma calls_apply_effect (c : call) (e : effect) (s : state) :
  calls (apply_effect c e s) = calls s ++ [c].
Proof. reflexivity. Qed.

Lemma runs_seq_ok (m1 m2 : M unit) (c1 c2 : list call) (r : result unit) :
  runs m1 (Ok tt) c1 -> runs m2 r c2 -> runs (m1;; m2) r (c1 ++ c2).
Proof.
  intros [W1 H1] [W2 H2]. exists (W2 ∪ W1). intros s.
  destruct (H1 s) as (s1 & Hm1 & Hc1 & Hf1).
  destruct (H2 s1) as (s2 & Hm2 & Hc2 & Hf2).
  exists s2. split; [|split].
  - by eapply bind_step.
  - by rewrite Hc2, Hc1, (assoc_L (++)).
  - by rewrite Hf2, Hf1, (assoc_L (∪)).
Qed.

Lemma runs_seq_raise (m1 m2 : M unit) (c1 : list call) (e : exn) :
  runs m1 (Raise e) c1 -> runs (m1;; m2) (Raise e) c1.
Proof.
  intros [W1 H1]. exists W1. intros s.
  destruct (H1 s) as (s1 & Hm1 & Hc1 & Hf1).
  exists s1. split; [|done]. by eapply bind_stop.
Qed.

Section Orchestration.
Context (lib : library) (env : environment).

Ltac block_done :=
  split;
  [ cbn [calls log refused apply_effect]; rewrite <- ?(assoc_L (++)); reflexivity
  | rewrite ?fs_apply_effect; cbn [fs log refused];
    rewrite ?(assoc_L (∪)), ?(left_id_L ∅ (∪)); reflexivity ].

Lemma text_block_run : runs (block lib env Text) (block_result lib env Text) (block_calls lib env Text).
Proof.
  unfold runs, block, block_result, block_exn, block_calls, fetch_exn, payload_truthy,
    save_exn, text_block, url_of.
  destruct (http_get env txt_url) as [r|e] eqn:Hget.
  - destruct (status_code r =? 200)%Z eqn:Hst; cbn [andb].
    + destruct (str_truthy (body r)) eqn:Htr.
      * destruct (writable env (data_file Text)) eqn:Hw.
        -- exists (effect_map (process_text_effect env "data" txt_filename
                                  "processed_text.txt" (Some (body r)))
                   ∪ effect_map (saved "Text" (data_file Text) (body r))).
           intros s. eexists. split.
           { eapply bind_step; [rewrite fetch_txt_data_run, Hget, Hst; reflexivity|].
             cbv beta iota. rewrite Htr.
             eapply bind_step;
               [rewrite save_text_run; cbv zeta;
                change (path_join data_path txt_filename) with (data_file Text);
                rewrite Hw; reflexivity|].
             rewrite process_text_data_run.
             change (path_join "data" txt_filename) with (data_file Text).
             unfold saved. rewrite lookup_apply_effect. reflexivity. }
           block_done.
        -- exists ∅. intros s. eexists. split.
           { eapply bind_step; [rewrite fetch_txt_data_run, Hget, Hst; reflexivity|].
             cbv beta iota. rewrite Htr.
             eapply bind_stop;
               [rewrite save_text_run; cbv zeta;
                change (path_join data_path txt_filename) with (data_file Text);
                rewrite Hw; reflexivity|reflexivity]. }
           block_done.
      * exists ∅. intros s. eexists. split.
        { eapply bind_step; [rewrite fetch_txt_data_run, Hget, Hst; reflexivity|].
          cbv beta iota. rewrite Htr. reflexivity. }
        block_done.
    + exists ∅. intros s. eexists. split.
      { eapply bind_step; [rewrite fetch_txt_data_run, Hget, Hst; reflexivity|].
        reflexivity. }
      block_done.
  - exists ∅. intros s. eexists. split.
    { eapply bind_stop; [rewrite fetch_txt_data_run, Hget; reflexivity|reflexivity]. }
    block_done.
Qed.

Lemma csv_block_run : runs (block lib env CSV) (block_result lib env CSV) (block_calls lib env CSV).
Proof.
  unfold runs, block, block_result, block_exn, block_calls, fetch_exn, payload_truthy,
    save_exn, csv_block, url_of.
  destruct (http_get env csv_url) as [r|e] eqn:Hget.
  - destruct (status_code r =? 200)%Z eqn:Hst; cbn [andb].
    + destruct (str_truthy (body r)) eqn:Htr.
      * destruct (parse_csv lib (body r)) as [df|e] eqn:Hparse.
        -- destruct (writable env (data_file CSV)) eqn:Hw.
           ++ exists (effect_map (process_csv_effect lib env "data" csv_filename
                                    "processed_csv.txt"
                                    (Some (csv_join lib (to_csv_fields lib df))))
                      ∪ effect_map (saved "CSV" (data_file CSV)
                                      (csv_join lib (to_csv_fields lib df)))).
              intros s. eexists. split.
              { eapply bind_step; [rewrite fetch_csv_data_run, Hget, Hst; reflexivity|].
                cbv beta iota. rewrite Htr.
                eapply bind_step;
                  [rewrite save_csv_run; cbv zeta; rewrite Hparse;
                   change (path_join data_path csv_filename) with (data_file CSV);
                   rewrite Hw; reflexivity|].
                rewrite process_csv_data_run.
                change (path_join "data" csv_filename) with (data_file CSV).
                unfold saved. rewrite lookup_apply_effect. reflexivity. }
              block_done.
           ++ exists ∅. intros s. eexists. split.
              { eapply bind_step; [rewrite fetch_csv_data_run, Hget, Hst; reflexivity|].
                cbv beta iota. rewrite Htr.
                eapply bind_stop;
                  [rewrite save_csv_run; cbv zeta; rewrite Hparse;
                   change (path_join data_path csv_filename) with (data_file CSV);
                   rewrite Hw; reflexivity|reflexivity]. }
              block_done.
        -- exists ∅. intros s. eexists. split.
           { eapply bind_step; [rewrite fetch_csv_data_run, Hget, Hst; reflexivity|].
             cbv beta iota. rewrite Htr.
             eapply bind_stop;
               [rewrite save_csv_run; cbv zeta; rewrite Hparse; reflexivity|reflexivity]. }
           block_done.
      * exists ∅. intros s. eexists. split.
        { eapply bind_step; [rewrite fetch_csv_data_run, Hget, Hst; reflexivity|].
          cbv beta iota. rewrite Htr. reflexivity. }
        block_done.
    + exists ∅. intros s. eexists. split.
      { eapply bind_step; [rewrite fetch_csv_data_run, Hget, Hst; reflexivity|].
        reflexivity. }
      block_done.
  - exists ∅. intros s. eexists. split.
    { eapply bind_stop; [rewrite fetch_csv_data_run, Hget; reflexivity|reflexivity]. }
    block_done.
Qed.

Lemma excel_block_run :
  runs (block lib env Spreadsheet) (block_result lib env Spreadsheet) (block_calls lib env Spreadsheet).
Proof.
  unfold runs, block, block_result, block_exn, block_calls, fetch_exn, payload_truthy,
    save_exn, excel_block, url_of.
  destruct (http_get env excel_url) as [r|e] eqn:Hget.
  - destruct (status_code r =? 200)%Z eqn:Hst; cbn [andb].
    + destruct (str_truthy (body r)) eqn:Htr.
      * destruct (writable env (data_file Spreadsheet)) eqn:Hw.
        -- exists (effect_map (process_excel_effect lib env "data" excel_filename
                                 "processed_excel.txt" (Some (body r)))
                   ∪ effect_map (saved "Excel" (data_file Spreadsheet) (body r))).
           intros s. eexists. split.
           { eapply bind_step; [rewrite fetch_excel_data_run, Hget, Hst; reflexivity|].
             cbv beta iota. rewrite Htr.
             eapply bind_step;
               [rewrite save_excel_run; cbv zeta;
                change (path_join data_path excel_filename) with (data_file Spreadsheet);
                rewrite Hw; reflexivity|].
             rewrite process_excel_data_run.
             change (path_join "data" excel_filename) with (data_file Spreadsheet).
             unfold saved. rewrite lookup_apply_effect. reflexivity. }
           block_done.
        -- exists ∅. intros s. eexists. split.
           { eapply bind_step; [rewrite fetch_excel_data_run, Hget, Hst; reflexivity|].
             cbv beta iota. rewrite Htr.
             eapply bind_stop;
               [rewrite save_excel_run; cbv zeta;
                change (path_join data_path excel_filename) with (data_file Spreadsheet);
                rewrite Hw; reflexivity|reflexivity]. }
           block_done.
      * exists ∅. intros s. eexists. split.
        { eapply bind_step; [rewrite fetch_excel_data_run, Hget, Hst; reflexivity|].
          cbv beta iota. rewrite Htr. reflexivity. }
        block_done.
    + exists ∅. intros s. eexists. split.
      { eapply bind_step; [rewrite fetch_excel_data_run, Hget, Hst; reflexivity|].
        reflexivity. }
      block_done.
  - exists ∅. intros s. eexists. split.
    { eapply bind_stop; [rewrite fetch_excel_data_run, Hget; reflexivity|reflexivity]. }
    block_done.
Qed.

Lemma json_block_run : runs (block lib env JSON) (block_result lib env JSON) (block_calls lib env JSON).
Proof.
  unfold runs, block, block_result, block_exn, block_calls, fetch_exn, payload_truthy,
    save_exn, json_block, url_of.
  destruct (http_get env json_url) as [r|e] eqn:Hget.
  - destruct (status_code r =? 200)%Z eqn:Hst; cbn [andb].
    + destruct (json_loads lib (body r)) as [v|] eqn:Hjson.
      * destruct (json_truthy v) eqn:Htr.
        -- destruct (writable env (data_file JSON)) eqn:Hw.
           ++ exists (effect_map (process_json_effect lib env "data" json_filename
                                    "processed_json.txt" (Some (json_dumps lib v)))
                      ∪ effect_map (saved "JSON" (data_file JSON) (json_dumps lib v))).
              intros s. eexists. split.
              { eapply bind_step;
                  [rewrite fetch_json_data_run, Hget, Hst, Hjson; reflexivity|].
                cbv beta iota. rewrite Htr.
                eapply bind_step;
                  [rewrite save_json_run; cbv zeta;
                   change (path_join data_path json_filename) with (data_file JSON);
                   rewrite Hw; reflexivity|].
                rewrite process_json_data_run.
                change (path_join "data" json_filename) with (data_file JSON).
                unfold saved. rewrite lookup_apply_effect. reflexivity. }
              block_done.
           ++ exists ∅. intros s. eexists. split.
              { eapply bind_step;
                  [rewrite fetch_json_data_run, Hget, Hst, Hjson; reflexivity|].
                cbv beta iota. rewrite Htr.
                eapply bind_stop;
                  [rewrite save_json_run; cbv zeta;
                   change (path_join data_path json_filename) with (data_file JSON);
                   rewrite Hw; reflexivity|reflexivity]. }
              block_done.
        -- exists ∅. intros s. eexists. split.
           { eapply bind_step;
               [rewrite fetch_json_data_run, Hget, Hst, Hjson; reflexivity|].
             cbv beta iota. rewrite Htr. reflexivity. }
           block_done.
      * exists ∅. intros s. eexists. split.
        { eapply bind_stop;
            [rewrite fetch_json_data_run, Hget, Hst, Hjson; reflexivity|reflexivity]. }
        block_done.
    + exists ∅. intros s. eexists. split.
      { eapply bind_step; [rewrite fetch_json_data_run, Hget, Hst; reflexivity|].
        reflexivity. }
      block_done.
  - exists ∅. intros s. eexists. split.
    { eapply bind_stop; [rewrite fetch_json_data_run, Hget; reflexivity|reflexivity]. }
    block_done.
Qed.

Lemma block_run (d : dataset) : runs (block lib env d) (block_result lib env d) (block_calls lib env d).
Proof.
  destruct d;
    [apply text_block_run | apply csv_block_run | apply excel_block_run | apply json_block_run].
Qed.

Lemma runs_cons (d : dataset) (ds : list dataset) (rest : M unit) :
  runs rest (run_result lib env ds) (run_calls lib env ds) ->
  runs (block lib env d;; rest) (run_result lib env (d :: ds)) (run_calls lib env (d :: ds)).
Proof.
  intros Hrest. pose proof (block_run d) as Hd.
  unfold block_result in Hd. cbn [run_result run_calls].
  destruct (block_exn lib env d) as [e|].
  - rewrite (right_id_L [] (++)). by apply runs_seq_raise.
  - by apply runs_seq_ok.
Qed.

Lemma main_run :
  runs (main lib env) (run_result lib env all_datasets) (run_calls lib env all_datasets).
Proof.
  unfold main, all_datasets.
  apply (runs_cons Text), (runs_cons CSV), (runs_cons Spreadsheet).
  pose proof (block_run JSON) as Hd. unfold block_result in Hd.
  cbn [run_result run_calls].
  by destruct (block_exn lib env JSON); rewrite (right_id_L [] (++)).
Qed.

End Orchestration.

(** * Words *)

Section Words.

Lemma whitespace_tokens_step (c : ascii) (s : string) :
  isspace c = false ->
  whitespace_tokens (String c s) = glue (String c "") s.
Proof.
  intros Hc. cbn [whitespace_tokens]. rewrite Hc.
  destruct s as [|c' s']; [done|]. cbn [glue].
  destruct (isspace c'); [done|].
  by destruct (whitespace_tokens (String c' s')).
Qed.

Lemma glue_step (w : string) (c : ascii) (s : string) :
  isspace c = false ->
  glue w (String c s) = glue (w +:+ String c "") s.
Proof.
  intros Hc. cbn [glue]. rewrite Hc, (whitespace_tokens_step _ _ Hc).
  destruct s as [|c' s']; [done|]. cbn [glue].
  destruct (isspace c'); [done|].
  destruct (whitespace_tokens (String c' s')) as [|t ts]; [done|].
  by rewrite append_assoc.
Qed.

Lemma split_go_spec (s : string) (cur : string) :
  split_go cur s =
    match cur with
    | EmptyString => whitespace_tokens s
    | String _ _ => glue cur s
    end.
Proof.
  revert cur. induction s as [|c s IH]; intros cur.
  - by destruct cur.
  - cbn [split_go]. destruct (isspace c) eqn:Hc.
    + rewrite (IH ""). destruct cur; cbn [whitespace_tokens glue]; by rewrite Hc.
    + rewrite IH. destruct cur as [|x cur].
      * by rewrite (whitespace_tokens_step _ _ Hc).
      * rewrite (glue_step _ _ _ Hc).
        change (String x cur +:+ String c "") with (String x (cur +:+ String c "")).
        done.
Qed.

(** [split] yields the whitespace-delimited tokens. *)
Lemma split_tokens (text : string) : split text = whitespace_tokens text.
Proof. apply (split_go_spec text ""). Qed.

(** *** Distinct words *)

Lemma first_seen_elem (l seen : list string) (x : string) :
  x ∈ first_seen seen l <-> x ∈ l /\ x ∉ seen.
Proof.
  revert seen. induction l as [|w l IH]; intros seen; cbn [first_seen].
  - set_solver.
  - case_bool_decide as Hw.
    + rewrite IH. set_solver.
    + rewrite elem_of_cons, IH. split.
      * intros [->|[Hx Hn]]; [set_solver|]. set_solver.
      * intros [Hx Hn]. destruct (decide (x = w)) as [->|Hne]; [by left|].
        right. set_solver.
Qed.

Lemma first_seen_NoDup (l seen : list string) : NoDup (first_seen seen l).
Proof.
  revert seen. induction l as [|w l IH]; intros seen; cbn [first_seen].
  - constructor.
  - case_bool_decide as Hw; [apply IH|].
    constructor; [|apply IH].
    rewrite first_seen_elem. set_solver.
Qed.

Lemma first_seen_snoc (l seen : list string) (w : string) :
  first_seen seen (l ++ [w]) =
    first_seen seen l ++ (if bool_decide (w ∈ seen ++ l) then [] else [w]).
Proof.
  revert seen. induction l as [|x l IH]; intros seen; cbn [first_seen app].
  - rewrite (right_id_L [] (++)). by case_bool_decide.
  - case_bool_decide as Hx.
    + rewrite IH.
      by rewrite (bool_decide_ext (w ∈ seen ++ l) (w ∈ seen ++ x :: l)) by set_solver.
    + rewrite IH. cbn [app].
      by rewrite (bool_decide_ext (w ∈ (x :: seen) ++ l) (w ∈ seen ++ x :: l))
        by set_solver.
Qed.

Lemma distinct_tokens_elem (l : list string) (x : string) :
  x ∈ distinct_tokens l <-> x ∈ l.
Proof. unfold distinct_tokens. rewrite first_seen_elem. set_solver. Qed.

(** [len(set(words))] is the number of distinct words. *)
Lemma unique_word_count_distinct (words : list string) :
  unique_word_count words = length (distinct_tokens words).
Proof.
  unfold unique_word_count.
  rewrite <- (size_list_to_set (C := gset string) (distinct_tokens words))
    by apply first_seen_NoDup.
  f_equal. apply set_eq. intros x.
  by rewrite !elem_of_list_to_set, distinct_tokens_elem.
Qed.

(** *** Frequencies *)

Lemma dict_get_table (keys : list string) (f : string -> nat) (w : string) :
  dict_get ((fun x => (x, f x)) <$> keys) w 0
  = if bool_decide (w ∈ keys) then f w else 0.
Proof.
  induction keys as [|k keys IH]; [done|].
  cbn [fmap list_fmap dict_get]. destruct (String.eqb_spec k w) as [->|Hne].
  - rewrite bool_decide_eq_true_2; [done|set_solver].
  - rewrite IH. apply (f_equal (fun b : bool => if b then f w else 0)).
    apply bool_decide_ext. set_solver.
Qed.

Lemma dict_set_table_in (keys : list string) (f : string -> nat) (w : string) (v : nat) :
  NoDup keys -> w ∈ keys ->
  dict_set ((fun x => (x, f x)) <$> keys) w v
  = (fun x => (x, if bool_decide (x = w) then v else f x)) <$> keys.
Proof.
  induction keys as [|k keys IH]; intros Hnd Hin; [set_solver|].
  apply NoDup_cons in Hnd as [Hk Hnd].
  cbn [fmap list_fmap dict_set]. destruct (String.eqb_spec k w) as [->|Hne].
  - rewrite bool_decide_eq_true_2 by done. f_equal.
    apply list_fmap_ext. intros i x Hx.
    rewrite bool_decide_eq_false_2; [done|].
    intros ->. apply Hk. by eapply list_elem_of_lookup_2.
  - rewrite bool_decide_eq_false_2 by done. f_equal.
    apply IH; [done|set_solver].
Qed.

Lemma dict_set_table_new (keys : list string) (f : string -> nat) (w : string) (v : nat) :
  w ∉ keys ->
  dict_set ((fun x => (x, f x)) <$> keys) w v
  = ((fun x => (x, f x)) <$> keys) ++ [(w, v)].
Proof.
  induction keys as [|k keys IH]; intros Hin; [done|].
  cbn [fmap list_fmap dict_set app]. destruct (String.eqb_spec k w) as [->|Hne].
  - set_solver.
  - f_equal. apply IH. set_solver.
Qed.

Lemma occurrences_snoc (x w : string) (l : list string) :
  occurrences x (l ++ [w])
  = occurrences x l + (if bool_decide (w = x) then 1 else 0).
Proof.
  unfold occurrences. rewrite filter_app, length_app. f_equal.
  rewrite filter_cons, filter_nil. case_decide.
  - by rewrite bool_decide_eq_true_2.
  - by rewrite bool_decide_eq_false_2.
Qed.

Lemma occurrences_absent (w : string) (l : list string) :
  w ∉ l -> occurrences w l = 0.
Proof.
  intros Hw. unfold occurrences.
  induction l as [|x l IH]; [done|].
  rewrite filter_cons. case_decide as Hx; [set_solver|].
  apply IH. set_solver.
Qed.

Lemma word_table_step (pre : list string) (w : string) :
  dict_set (word_table pre) w (dict_get (word_table pre) w 0 + 1)
  = word_table (pre ++ [w]).
Proof.
  unfold word_table, distinct_tokens.
  rewrite first_seen_snoc, dict_get_table. cbn [app].
  pose proof (first_seen_NoDup pre []) as Hnd.
  assert (Hel : forall x, x ∈ first_seen [] pre <-> x ∈ pre).
  { intros x. apply distinct_tokens_elem. }
  destruct (decide (w ∈ pre)) as [Hin|Hout].
  - rewrite !bool_decide_eq_true_2 by (by rewrite ?Hel).
    rewrite (right_id_L [] (++)).
    rewrite dict_set_table_in by (by rewrite ?Hel).
    apply list_fmap_ext. intros i x Hx. f_equal.
    rewrite occurrences_snoc. case_bool_decide as Hxw.
    + subst x. by rewrite bool_decide_eq_true_2.
    + rewrite bool_decide_eq_false_2 by done. lia.
  - rewrite !bool_decide_eq_false_2 by (by rewrite ?Hel).
    rewrite dict_set_table_new by (by rewrite Hel).
    rewrite fmap_app. cbn [fmap list_fmap]. f_equal.
    + apply list_fmap_ext. intros i x Hx. f_equal.
      rewrite occurrences_snoc, bool_decide_eq_false_2; [lia|].
      intros ->. apply Hout, Hel. by eapply list_elem_of_lookup_2.
    + rewrite occurrences_snoc, bool_decide_eq_true_2 by done.
      by rewrite (occurrences_absent _ _ Hout).
Qed.

Lemma count_words_from (pre words : list string) :
  foldl (fun word_freq word =>
           dict_set word_freq word (dict_get word_freq word 0 + 1))
        (word_table pre) words
  = word_table (pre ++ words).
Proof.
  revert pre. induction words as [|w words IH]; intros pre; cbn [foldl].
  - by rewrite (right_id_L [] (++)).
  - rewrite word_table_step, IH. by rewrite <- (assoc_L (++)).
Qed.

(** The dictionary the loop builds lists each distinct word once, in
    first-seen order, with its number of occurrences. *)
Lemma count_words_table (words : list string) : count_words words = word_table words.
Proof. apply (count_words_from [] words). Qed.

End Words.

Example demo_decimal :
  Demo.decimal 2.5%float = "2.5" /\ Demo.decimal 5%float = "5.0"
  /\ Demo.decimal (-0.125)%float = "-0.125".
Proof. vm_compute. done. Qed.

Example demo_run_calls :
  calls (snd (main Demo.lib Demo.online Demo.fresh))
  = [Fetch Text; Save Text; Process Text; Fetch CSV; Save CSV; Process CSV;
     Fetch Spreadsheet; Save Spreadsheet; Process Spreadsheet;
     Fetch JSON; Save JSON; Process JSON].
Proof. vm_compute. reflexivity. Qed.

(** * Whitespace-delimited tokens, declaratively *)

Lemma tokenizes_space (c : ascii) (s : string) (toks : list string) :
  isspace c = true -> tokenizes s toks -> tokenizes (String c s) toks.
Proof.
  intros Hc H. destruct H as [ws Hws|ws w rest toks Hws Hw Hb Hrest].
  - apply tokenizes_end. cbn. by rewrite Hc.
  - change (String c (ws +:+ w +:+ rest)) with (String c ws +:+ w +:+ rest).
    apply tokenizes_word; [|done..]. cbn. by rewrite Hc.
Qed.

Lemma tokenizes_starts_word (c : ascii) (s : string) (toks : list string) :
  isspace c = false -> tokenizes (String c s) toks ->
  exists w rest toks',
    toks = w :: toks' /\ String c s = w +:+ rest
    /\ is_word w /\ at_boundary rest /\ tokenizes rest toks'.
Proof.
  intros Hc H. inversion H as [ws Hws Heq|ws w rest toks' Hws Hw Hb Hrest Heq]; subst.
  - cbn in Hws. by rewrite Hc in Hws.
  - destruct ws as [|x ws].
    + by exists w, rest, toks'.
    + change (String x ws +:+ w +:+ rest) with (String x (ws +:+ w +:+ rest)) in Heq.
      injection Heq as -> _. cbn in Hws. by rewrite Hc in Hws.
Qed.

Lemma whitespace_tokens_tokenizes (text : string) :
  tokenizes text (whitespace_tokens text).
Proof.
  induction text as [|c s IH]; [by apply tokenizes_end|].
  cbn [whitespace_tokens]. destruct (isspace c) eqn:Hc.
  { by apply tokenizes_space. }
  assert (Hone : is_word (String c "")).
  { split; [done|]. cbn. by rewrite Hc. }
  destruct s as [|c' t].
  { apply (tokenizes_word "" (String c "") "" []); [done|done|done|].
    by apply tokenizes_end. }
  destruct (isspace c') eqn:Hc'.
  { by apply (tokenizes_word "" (String c "") (String c' t)). }
  destruct (tokenizes_starts_word c' t _ Hc' IH)
    as (w & rest & toks' & Htoks & Heq & [Hw1 Hw2] & Hb & Hrest).
  rewrite Htoks, Heq.
  apply (tokenizes_word "" (String c w) rest toks'); [done| |done|done].
  split; [done|]. cbn. by rewrite Hc.
Qed.

Lemma whitespace_tokens_all_space (ws : string) :
  all_chars isspace ws = true -> whitespace_tokens ws = [].
Proof.
  induction ws as [|c ws IH]; [done|]. cbn [all_chars whitespace_tokens].
  intros H. apply andb_prop in H as [Hc Hws]. rewrite Hc. by apply IH.
Qed.

Lemma whitespace_tokens_skip (ws s : string) :
  all_chars isspace ws = true -> whitespace_tokens (ws +:+ s) = whitespace_tokens s.
Proof.
  induction ws as [|c ws IH]; [done|]. cbn [all_chars].
  intros H. apply andb_prop in H as [Hc Hws].
  change (String c ws +:+ s) with (String c (ws +:+ s)).
  cbn [whitespace_tokens]. rewrite Hc. by apply IH.
Qed.

Lemma whitespace_tokens_word (w rest : string) :
  is_word w -> at_boundary rest ->
  whitespace_tokens (w +:+ rest) = w :: whitespace_tokens rest.
Proof.
  intros [Hne Hw] Hb. induction w as [|c w IH]; [done|].
  cbn [all_chars] in Hw. apply andb_prop in Hw as [Hc Hw].
  apply negb_true_iff in Hc.
  change (String c w +:+ rest) with (String c (w +:+ rest)).
  cbn [whitespace_tokens]. rewrite Hc.
  destruct w as [|c2 w].
  - change ("" +:+ rest) with rest. destruct rest as [|c' rest]; [done|].
    cbn in Hb. by rewrite Hb.
  - change (String c2 w +:+ rest) with (String c2 (w +:+ rest)) in *.
    assert (Hc2 : isspace c2 = false).
    { cbn [all_chars] in Hw. apply andb_prop in Hw as [Hc2 _].
      by apply negb_true_iff in Hc2. }
    cbv iota. rewrite Hc2. by rewrite IH.
Qed.

(** The tokens of a text are unique, and they are [whitespace_tokens]. *)
Lemma tokenizes_unique (text : string) (toks : list string) :
  tokenizes text toks -> toks = whitespace_tokens text.
Proof.
  induction 1 as [ws Hws|ws w rest toks Hws Hw Hb Hrest IH].
  - by rewrite whitespace_tokens_all_space.
  - by rewrite whitespace_tokens_skip, whitespace_tokens_word, <- IH.
Qed.

(** * The text summarizer *)

Lemma text_report_words (text : string) :
  text_report text = word_report (whitespace_tokens text).
Proof.
  unfold text_report, word_report.
  rewrite split_tokens, unique_word_count_distinct, count_words_table.
  unfold word_table. rewrite <- list_fmap_compose.
  by rewrite !append_assoc.
Qed.

(** C3.  For every text in the input file, the text has exactly one list of
    whitespace-delimited tokens, and [process_text_data] writes a report
    whose [Total words] is the number of these tokens, whose [Unique words]
    is the number of distinct tokens, and which has one frequency line per
    distinct token, in the order in which the tokens are first seen; for
    the empty file the report is [Total words: 0], [Unique words: 0] and an
    empty frequency section. *)
Theorem process_text_data_report (env : environment)
    (folder filename processed : string) (s : state) (text : string) :
  fs s !! path_join folder filename = Some text ->
  writable env (path_join folder processed) = true ->
  exists tokens s',
    tokenizes text tokens
    /\ (forall toks, tokenizes text toks -> toks = tokens)
    /\ process_text_data env folder filename processed s = (Ok tt, s')
    /\ fs s' !! path_join folder processed
       = Some ("Total words: " +:+ pretty (length tokens) +:+ nl +:+
               "Unique words: " +:+ pretty (length (distinct_tokens tokens)) +:+ nl +:+
               "Word frequencies:" +:+ nl +:+
               cat ((fun w => w +:+ ": " +:+ pretty (occurrences w tokens) +:+ nl)
                    <$> distinct_tokens tokens))
    /\ (text = "" ->
        fs s' !! path_join folder processed
        = Some ("Total words: 0" +:+ nl +:+ "Unique words: 0" +:+ nl
                +:+ "Word frequencies:" +:+ nl)).
Proof.
  intros Hin Hw. exists (whitespace_tokens text). eexists.
  split; [apply whitespace_tokens_tokenizes|].
  split; [apply tokenizes_unique|].
  split; [apply process_text_data_run|].
  rewrite Hin. unfold process_text_effect. rewrite Hw.
  assert (Hout : fs (apply_effect (Process Text)
                   {| eff_write := Some (path_join folder processed, text_report text);
                      eff_line := "Text data processed and saved to "
                                  +:+ path_join folder processed |} s)
                 !! path_join folder processed
                 = Some (word_report (whitespace_tokens text))).
  { by rewrite lookup_apply_effect, text_report_words. }
  split; [exact Hout|].
  intros ->. by rewrite Hout.
Qed.

Lemma process_text_data_report_witness :
  exists s',
    process_text_data Demo.online "data" "data.txt" "processed_text.txt"
      (Demo.holding "data/data.txt" "the cat the hat") = (Ok tt, s')
    /\ fs s' !! "data/processed_text.txt"
       = Some ("Total words: 4" +:+ nl +:+ "Unique words: 3" +:+ nl
               +:+ "Word frequencies:" +:+ nl
               +:+ "the: 2" +:+ nl +:+ "cat: 1" +:+ nl +:+ "hat: 1" +:+ nl).
Proof.
  destruct (process_text_data_report Demo.online "data" "data.txt" "processed_text.txt"
              (Demo.holding "data/data.txt" "the cat the hat") "the cat the hat")
    as (tokens & s' & _ & Huniq & Hrun & Hout & _); [reflexivity | reflexivity |].
  exists s'. split; [exact Hrun|].
  rewrite <- (Huniq ["the"; "cat"; "the"; "hat"]
                 (whitespace_tokens_tokenizes "the cat the hat")) in Hout.
  exact Hout.
Defined.

(** * The JSON summarizer *)

(** C6.  When the input file holds a JSON value that is not a mapping (an
    array or a scalar), [process_json_data] reports an error on the console
    and returns normally: no exception leaves it, so the caller goes on. *)
Theorem process_json_data_not_mapping (lib : library) (env : environment)
    (folder filename processed : string) (s : state) (text : string) (v : json) :
  fs s !! path_join folder filename = Some text ->
  json_loads lib text = Some v ->
  is_mapping v = false ->
  exists msg s',
    process_json_data lib env folder filename processed s = (Ok tt, s')
    /\ console s' = console s ++ ["Error processing JSON data: " +:+ msg]
    /\ calls s' = calls s ++ [Process JSON].
Proof.
  intros Hin Hv Hmap.
  pose proof (process_json_data_run lib env folder filename processed s) as Hrun.
  rewrite Hin in Hrun. unfold process_json_effect in Hrun. rewrite Hv in Hrun.
  destruct (py_len v) as [n|e] eqn:Hlen.
  - destruct (writable env (path_join folder processed)).
    + destruct (py_items v) as [items|e] eqn:Hitems.
      * by destruct v.
      * exists (exn_str e). eexists. split; [exact Hrun|]. done.
    + exists (exn_str (PermissionError (path_join folder processed))).
      eexists. split; [exact Hrun|]. done.
  - exists (exn_str e). eexists. split; [exact Hrun|]. done.
Qed.

Lemma process_json_data_not_mapping_witness :
  exists msg s',
    process_json_data Demo.lib Demo.online "data" "data.json" "processed_json.txt"
      (Demo.holding "data/data.json" "[1, 2, 3]") = (Ok tt, s')
    /\ console s' = ["Error processing JSON data: " +:+ msg]
    /\ calls s' = [Process JSON].
Proof.
  apply (process_json_data_not_mapping Demo.lib Demo.online "data" "data.json"
           "processed_json.txt" (Demo.holding "data/data.json" "[1, 2, 3]")
           "[1, 2, 3]" (JArr [JInt 1; JInt 2; JInt 3])); reflexivity.
Defined.

(** C10.  When the input file holds a top-level array and the report can be
    opened, [process_json_data] leaves a partial report behind: the
    [Item count] line with the length of the array and the
    [JSON data summary:] line are in the file, and the failure of [.items()]
    is caught and logged. *)
Theorem process_json_data_array_partial (lib : library) (env : environment)
    (folder filename processed : string) (s : state) (text : string) (l : list json) :
  fs s !! path_join folder filename = Some text ->
  json_loads lib text = Some (JArr l) ->
  writable env (path_join folder processed) = true ->
  exists s',
    process_json_data lib env folder filename processed s = (Ok tt, s')
    /\ fs s' !! path_join folder processed
       = Some ("Item count: " +:+ pretty (length l) +:+ nl
               +:+ "JSON data summary:" +:+ nl)
    /\ console s'
       = console s ++ ["Error processing JSON data: 'list' object has no attribute 'items'"].
Proof.
  intros Hin Hv Hw.
  pose proof (process_json_data_run lib env folder filename processed s) as Hrun.
  rewrite Hin in Hrun. unfold process_json_effect in Hrun.
  rewrite Hv in Hrun. cbn [py_len py_items] in Hrun. rewrite Hw in Hrun.
  eexists. split; [exact Hrun|]. split; [|done].
  rewrite lookup_apply_effect. unfold json_report.
  by rewrite append_nil_r, !append_assoc.
Qed.

Lemma process_json_data_array_partial_witness :
  exists s',
    process_json_data Demo.lib Demo.online "data" "data.json" "processed_json.txt"
      (Demo.holding "data/data.json" "[1, 2, 3]") = (Ok tt, s')
    /\ fs s' !! "data/processed_json.txt"
       = Some ("Item count: 3" +:+ nl +:+ "JSON data summary:" +:+ nl)
    /\ console s'
       = ["Error processing JSON data: 'list' object has no attribute 'items'"].
Proof.
  apply (process_json_data_array_partial Demo.lib Demo.online "data" "data.json"
           "processed_json.txt" (Demo.holding "data/data.json" "[1, 2, 3]")
           "[1, 2, 3]" [JInt 1; JInt 2; JInt 3]); reflexivity.
Defined.

(** * The orchestrator *)

(** C9.  Running [main] a second time against the same servers and the same
    libraries, on the file store the first run left, ends the same way and
    leaves every file as the first run left it; and what each summarizer
    writes and prints is a function of the content of its input file. *)
Theorem main_twice (lib : library) (env : environment) (s : state) :
  (let first := main lib env s in
   let second := main lib env (snd first) in
   fst second = fst first /\ fs (snd second) = fs (snd first))
  /\ (forall folder filename processed s0,
        process_text_data env folder filename processed s0
        = (Ok tt, apply_effect (Process Text)
                    (process_text_effect env folder filename processed
                       (fs s0 !! path_join folder filename)) s0))
  /\ (forall folder filename processed s0,
        process_csv_data lib env folder filename processed s0
        = (Ok tt, apply_effect (Process CSV)
                    (process_csv_effect lib env folder filename processed
                       (fs s0 !! path_join folder filename)) s0))
  /\ (forall folder filename processed s0,
        process_excel_data lib env folder filename processed s0
        = (Ok tt, apply_effect (Process Spreadsheet)
                    (process_excel_effect lib env folder filename processed
                       (fs s0 !! path_join folder filename)) s0))
  /\ (forall folder filename processed s0,
        process_json_data lib env folder filename processed s0
        = (Ok tt, apply_effect (Process JSON)
                    (process_json_effect lib env folder filename processed
                       (fs s0 !! path_join folder filename)) s0)).
Proof.
  split; [|split; [|split; [|split]]].
  - destruct (main_run lib env) as [W Hrun]. cbv zeta.
    destruct (Hrun s) as (s1 & H1 & _ & Hf1). rewrite H1. cbn [fst snd].
    destruct (Hrun s1) as (s2 & H2 & _ & Hf2). rewrite H2. cbn [fst snd].
    split; [done|].
    by rewrite Hf2, Hf1, (assoc_L (∪)), (idemp_L (∪)).
  - apply process_text_data_run.
  - apply process_csv_data_run.
  - apply process_excel_data_run.
  - apply process_json_data_run.
Qed.

(** C1, as the code has it.  A run goes through the four pipelines in order
    and stops at the first one that an exception leaves.  It ends normally
    exactly when no pipeline is left by an exception, that is when no
    fetcher raises (transport error, or a body that is not JSON) and no
    writer that is called raises; it has then entered the fetcher of each
    of the four datasets.  What happens inside a summarizer plays no
    part. *)
Theorem main_completes_iff (lib : library) (env : environment) (s : state) :
  exists r s' cs,
    main lib env s = (r, s')
    /\ calls s' = calls s ++ cs
    /\ r = run_result lib env [Text; CSV; Spreadsheet; JSON]
    /\ cs = run_calls lib env [Text; CSV; Spreadsheet; JSON]
    /\ (r = Ok tt <-> forall d, block_exn lib env d = None)
    /\ (r = Ok tt -> forall d, Fetch d ∈ cs).
Proof.
  destruct (main_run lib env) as [W Hrun].
  destruct (Hrun s) as (s' & Hmain & Hcalls & _).
  exists (run_result lib env all_datasets), s', (run_calls lib env all_datasets).
  split; [done|]. split; [done|]. split; [done|]. split; [done|].
  unfold all_datasets. cbn [run_result run_calls].
  destruct (block_exn lib env Text) as [e1|] eqn:H1.
  { split; [|done]. split; [done|]. intros H. by rewrite H in H1. }
  destruct (block_exn lib env CSV) as [e2|] eqn:H2.
  { split; [|done]. split; [done|]. intros H. by rewrite H in H2. }
  destruct (block_exn lib env Spreadsheet) as [e3|] eqn:H3.
  { split; [|done]. split; [done|]. intros H. by rewrite H in H3. }
  destruct (block_exn lib env JSON) as [e4|] eqn:H4.
  { split; [|done]. split; [done|]. intros H. by rewrite H in H4. }
  split.
  - split; [|done]. intros _ d. by destruct d.
  - intros _ d. unfold block_calls. rewrite !elem_of_app, !elem_of_cons.
    destruct d; tauto.
Qed.

(** C1, as stated, fails: when the first request meets a transport error the
    exception leaves [main]; the three other datasets are never fetched. *)
Lemma transport_error_ends_run :
  fst (main Demo.lib Demo.offline Demo.fresh) = Raise (ConnectionError txt_url)
  /\ calls (snd (main Demo.lib Demo.offline Demo.fresh)) = [Fetch Text].
Proof. vm_compute. done. Qed.






(** * Numeric columns *)

Section Frames.











End Frames.







(** * Dtype inference and the statistics section *)









(** * The two tabular summarizers *)

(** The CSV report starts with its first heading; the spreadsheet report is
    empty or starts with the title of its first column. *)
Lemma reports_differ (lib : library) (df : DataFrame) :
  csv_report lib df <> excel_report lib df.
Proof.
  intros Heq. apply (f_equal head_char) in Heq.
  unfold csv_report, excel_report in Heq.
  destruct (numeric_stats df) as [|[column metrics] stats]; discriminate Heq.
Qed.

(** C2, as the code has it.  When the CSV file and the workbook hold the same
    table, both summarizers compute the same statistics and write the same
    metric lines for the same columns in the same order, and the two report
    texts are never equal: the CSV report starts with the rows and a
    heading and titles a column with a blank line and [<column>:], the
    spreadsheet report has no rows and no heading and titles a column
    [Statistics for <column>:]. *)
Theorem tabular_reports (lib : library) (env : environment) (s : state)
    (folder csv_name xls_name csv_out xls_out : string)
    (csv_text xls_bytes : string) (df : DataFrame) :
  fs s !! path_join folder csv_name = Some csv_text ->
  parse_csv lib csv_text = Ok df ->
  fs s !! path_join folder xls_name = Some xls_bytes ->
  parse_excel lib xls_bytes = Ok df ->
  writable env (path_join folder csv_out) = true ->
  writable env (path_join folder xls_out) = true ->
  exists s1 s2 csv_rep xls_rep,
    process_csv_data lib env folder csv_name csv_out s = (Ok tt, s1)
    /\ process_excel_data lib env folder xls_name xls_out s = (Ok tt, s2)
    /\ fs s1 !! path_join folder csv_out = Some csv_rep
    /\ fs s2 !! path_join folder xls_out = Some xls_rep
    /\ csv_rep
       = ("Rows as tuples:" +:+ nl)
         +:+ cat ((fun row => str_tuple lib row +:+ nl) <$> to_numpy df)
         +:+ (nl +:+ "Statistics for numeric columns:" +:+ nl)
         +:+ cat ((fun '(column, metrics) =>
                     (nl +:+ column +:+ ":" +:+ nl) +:+ metrics_lines lib metrics)
                  <$> numeric_stats df)
    /\ xls_rep
       = cat ((fun '(column, metrics) =>
                 ("Statistics for " +:+ column +:+ ":" +:+ nl) +:+ metrics_lines lib metrics)
              <$> numeric_stats df)
    /\ csv_rep <> xls_rep.
Proof.
  intros Hc Hdf1 Hx Hdf2 Hw1 Hw2.
  pose proof (process_csv_data_run lib env folder csv_name csv_out s) as H1.
  pose proof (process_excel_data_run lib env folder xls_name xls_out s) as H2.
  rewrite Hc in H1. rewrite Hx in H2.
  unfold process_csv_effect in H1. unfold process_excel_effect in H2.
  rewrite Hdf1, Hw1 in H1. rewrite Hdf2, Hw2 in H2.
  eexists _, _, (csv_report lib df), (excel_report lib df).
  split; [exact H1|]. split; [exact H2|].
  split; [apply lookup_apply_effect|]. split; [apply lookup_apply_effect|].
  split; [reflexivity|]. split; [reflexivity|].
  apply reports_differ.
Qed.

Lemma tabular_reports_witness :
  exists s1 s2 csv_rep xls_rep,
    process_csv_data Demo.lib Demo.online "data" "data.csv" "processed_csv.txt"
      Demo.two_tables = (Ok tt, s1)
    /\ process_excel_data Demo.lib Demo.online "data" "data.xls" "processed_excel.txt"
         Demo.two_tables = (Ok tt, s2)
    /\ fs s1 !! "data/processed_csv.txt" = Some csv_rep
    /\ fs s2 !! "data/processed_excel.txt" = Some xls_rep
    /\ csv_rep <> xls_rep.
Proof.
  destruct (tabular_reports Demo.lib Demo.online Demo.two_tables
              "data" "data.csv" "data.xls" "processed_csv.txt" "processed_excel.txt"
              Demo.table_text Demo.table_text
              {| index_len := 2;
                 columns := [ ("name", Object [CStr "ann"; CStr "bob"]);
                              ("x", Int64 [1; 3]%Z);
                              ("y", Int64 [2; 4]%Z) ] |})
    as (s1 & s2 & csv_rep & xls_rep & H1 & H2 & H3 & H4 & _ & _ & H7);
    [reflexivity | vm_compute; reflexivity | reflexivity | vm_compute; reflexivity
    | reflexivity | reflexivity |].
  exists s1, s2, csv_rep, xls_rep. do 4 (split; [assumption|]). exact H7.
Defined.

(** C2, as stated, fails: the CSV file and the workbook hold the same table,
    both summarizers succeed, and the two reports are different texts. *)
Lemma same_table_different_reports :
  parse_csv Demo.lib Demo.table_text = parse_excel Demo.lib Demo.table_text
  /\ fs (snd (process_csv_data Demo.lib Demo.online "data" "data.csv"
                "processed_csv.txt" Demo.two_tables)) !! "data/processed_csv.txt"
     = Some ("Rows as tuples:" +:+ nl
             +:+ "('ann', 1, 2)" +:+ nl
             +:+ "('bob', 3, 4)" +:+ nl
             +:+ nl +:+ "Statistics for numeric columns:" +:+ nl
             +:+ nl +:+ "x:" +:+ nl
             +:+ "Mean: 2.0" +:+ nl
             +:+ "Median: 2.0" +:+ nl
             +:+ "Standard Deviation: 1.4142135623730951454746218587388284504413604736328125" +:+ nl
             +:+ "Max: 3" +:+ nl
             +:+ "Min: 1" +:+ nl
             +:+ nl +:+ "y:" +:+ nl
             +:+ "Mean: 3.0" +:+ nl
             +:+ "Median: 3.0" +:+ nl
             +:+ "Standard Deviation: 1.4142135623730951454746218587388284504413604736328125" +:+ nl
             +:+ "Max: 4" +:+ nl
             +:+ "Min: 2" +:+ nl)
  /\ fs (snd (process_excel_data Demo.lib Demo.online "data" "data.xls"
                "processed_excel.txt" Demo.two_tables)) !! "data/processed_excel.txt"
     = Some ("Statistics for x:" +:+ nl
             +:+ "Mean: 2.0" +:+ nl
             +:+ "Median: 2.0" +:+ nl
             +:+ "Standard Deviation: 1.4142135623730951454746218587388284504413604736328125" +:+ nl
             +:+ "Max: 3" +:+ nl
             +:+ "Min: 1" +:+ nl
             +:+ "Statistics for y:" +:+ nl
             +:+ "Mean: 3.0" +:+ nl
             +:+ "Median: 3.0" +:+ nl
             +:+ "Standard Deviation: 1.4142135623730951454746218587388284504413604736328125" +:+ nl
             +:+ "Max: 4" +:+ nl
             +:+ "Min: 2" +:+ nl)
  /\ fs (snd (process_csv_data Demo.lib Demo.online "data" "data.csv"
                "processed_csv.txt" Demo.two_tables)) !! "data/processed_csv.txt"
     <> fs (snd (process_excel_data Demo.lib Demo.online "data" "data.xls"
                   "processed_excel.txt" Demo.two_tables)) !! "data/processed_excel.txt".
Proof.
  split; [vm_compute; reflexivity|]. split; [vm_compute; reflexivity|].
  split; [vm_compute; reflexivity|].
  intros H. vm_compute in H. discriminate H.
Qed.

(** * Saving a CSV file *)

Section CsvRoundTrip.
Context (lib : library).









End CsvRoundTrip.



(** * Further properties of the script *)

(** ** Writers *)

Lemma fs_apply_effect_saved (c : call) (what path data : string) (s : state) :
  fs (apply_effect c (saved what path data) s) = <[path := data]> (fs s).
Proof. reflexivity. Qed.




(** X2.  When the data file cannot be opened, each of the four writers is
    left by an exception, prints nothing and changes no file. *)
Theorem writers_fail_clean (lib : library) (env : environment) (s : state)
    (filename : string) :
  writable env (path_join data_path filename) = false ->
  (forall content, exists e s',
      save_text env filename content s = (Raise e, s')
      /\ fs s' = fs s /\ console s' = console s)
  /\ (forall content, exists e s',
      save_excel env filename content s = (Raise e, s')
      /\ fs s' = fs s /\ console s' = console s)
  /\ (forall content, exists e s',
      save_json lib env filename content s = (Raise e, s')
      /\ fs s' = fs s /\ console s' = console s)
  /\ (forall content, exists e s',
      save_csv lib env filename content s = (Raise e, s')
      /\ fs s' = fs s /\ console s' = console s).
Proof.
  intros Hw. split; [|split; [|split]]; intros content.
  - rewrite save_text_run. cbv zeta. rewrite Hw. by eexists _, _.
  - rewrite save_excel_run. cbv zeta. rewrite Hw. by eexists _, _.
  - rewrite save_json_run. cbv zeta. rewrite Hw. by eexists _, _.
  - rewrite save_csv_run. cbv zeta. rewrite Hw.
    destruct (parse_csv lib content); by eexists _, _.
Qed.

Lemma writers_fail_clean_witness :
  exists e s',
    save_csv Demo.lib Worlds.read_only "data.csv" Demo.table_text
      (Demo.holding "data/data.csv" "old") = (Raise e, s')
    /\ fs s' = {[ "data/data.csv" := "old" ]}.
Proof.
  destruct (proj2 (proj2 (proj2 (writers_fail_clean Demo.lib Worlds.read_only
                     (Demo.holding "data/data.csv" "old") "data.csv" eq_refl)))
              Demo.table_text)
    as (e & s' & Hrun & Hfs & _).
  exists e, s'. split; [exact Hrun | exact Hfs].
Defined.

(** X3.  [save_csv] parses the content before it opens the file: content
    that does not parse is not saved, the exception of the parser leaves the
    function, and the file keeps what it held. *)
Theorem save_csv_rejects_unparsable (lib : library) (env : environment) (s : state)
    (filename content : string) (e : exn) :
  parse_csv lib content = Raise e ->
  exists s',
    save_csv lib env filename content s = (Raise e, s')
    /\ fs s' = fs s
    /\ console s' = console s
    /\ calls s' = calls s ++ [Save CSV].
Proof.
  intros Hparse. rewrite save_csv_run. cbv zeta. rewrite Hparse. by eexists.
Qed.

Lemma save_csv_rejects_unparsable_witness :
  exists s',
    save_csv Demo.lib Demo.online "data.csv" nl (Demo.holding "data/data.csv" "old")
    = (Raise EmptyDataError, s')
    /\ fs s' = {[ "data/data.csv" := "old" ]}.
Proof.
  destruct (save_csv_rejects_unparsable Demo.lib Demo.online
              (Demo.holding "data/data.csv" "old") "data.csv" nl EmptyDataError eq_refl)
    as (s' & Hrun & Hfs & _).
  exists s'. split; [exact Hrun | exact Hfs].
Defined.

(** ** Fetchers *)

Lemma fetch_contract_of (env : environment) (what : string) (c : call)
    (fetch : string -> M (option string)) :
  (forall url s,
     fetch url s
     = match http_get env url with
       | Raise e => (Raise e, log c s)
       | Ok r =>
           if (status_code r =? 200)%Z then (Ok (Some (body r)), log c s)
           else (Ok None, refused what r c s)
       end) ->
  fetch_contract env fetch.
Proof.
  intros Hrun url s. cbv zeta. rewrite Hrun.
  destruct (http_get env url) as [r|e] eqn:Hget.
  - destruct (status_code r =? 200)%Z eqn:Hst; cbn [fst snd].
    + apply Z.eqb_eq in Hst.
      split; [done|]. split.
      { intros b. split.
        - intros [= <-]. by exists r.
        - intros (r' & [= <-] & _ & <-). done. }
      split.
      { split; [done|]. intros (r' & [= <-] & Hne). done. }
      split; [by split|]. split; [done|]. done.
    + apply Z.eqb_neq in Hst.
      split; [done|]. split.
      { intros b. split; [done|]. intros (r' & [= <-] & H200 & _). done. }
      split.
      { split; [|done]. intros _. by exists r. }
      split; [by split|]. split; [|done].
      intros _. by eexists.
  - cbn [fst snd]. split; [done|]. split.
    { intros b. split; [done|]. by intros (r & ? & _). }
    split.
    { split; [done|]. by intros (r & ? & _). }
    split.
    { intros e'. split; by intros [= ->]. }
    split; [done|]. done.
Qed.

(** X4.  [fetch_txt_data], [fetch_csv_data] and [fetch_excel_data] return the
    body of the answer exactly when its status is 200; on any other status
    they return [None] and print one line; a transport error goes through
    them; and they never change a file. *)
Theorem fetchers_contract (env : environment) :
  fetch_contract env (fetch_txt_data env)
  /\ fetch_contract env (fetch_csv_data env)
  /\ fetch_contract env (fetch_excel_data env).
Proof.
  split; [|split].
  - apply (fetch_contract_of env "text" (Fetch Text)). apply fetch_txt_data_run.
  - apply (fetch_contract_of env "CSV" (Fetch CSV)). apply fetch_csv_data_run.
  - apply (fetch_contract_of env "Excel" (Fetch Spreadsheet)). apply fetch_excel_data_run.
Qed.

(** X5.  [fetch_json_data] decodes the body only when the status is 200: a
    200 answer whose body is not JSON makes it raise the decoding error, a
    body that decodes is returned as the decoded value, and on any other
    status the body is not looked at: the status is printed and [None] is
    returned.  No file changes. *)
Theorem fetch_json_data_contract (lib : library) (env : environment)
    (url : string) (s : state) (r : response) :
  http_get env url = Ok r ->
  let out := fetch_json_data lib env url s in
  fs (snd out) = fs s
  /\ (status_code r = 200%Z ->
      fst out = match json_loads lib (body r) with
                | Some v => Ok (Some v)
                | None => Raise JSONDecodeError
                end
      /\ console (snd out) = console s)
  /\ (status_code r <> 200%Z ->
      fst out = Ok None
      /\ console (snd out)
         = console s ++ ["Failed to fetch JSON data: " +:+ pretty (status_code r)]).
Proof.
  intros Hget. cbv zeta. rewrite fetch_json_data_run, Hget.
  destruct (status_code r =? 200)%Z eqn:Hst.
  - apply Z.eqb_eq in Hst.
    destruct (json_loads lib (body r)); (split; [done|]); split; done.
  - apply Z.eqb_neq in Hst. split; [done|]. split; [done|]. done.
Qed.

Lemma fetch_json_data_contract_witness :
  fst (fetch_json_data Demo.lib Worlds.refusing json_url Demo.fresh) = Ok None
  /\ console (snd (fetch_json_data Demo.lib Worlds.refusing json_url Demo.fresh))
     = ["Failed to fetch JSON data: 404"].
Proof.
  refine (proj2 (proj2 (fetch_json_data_contract Demo.lib Worlds.refusing json_url
                          Demo.fresh {| status_code := 404; body := "Not Found" |}
                          eq_refl)) _).
  done.
Defined.

(** ** Summarizers *)

(** X6.  When the input file holds a JSON object and the report can be
    opened, [process_json_data] writes the number of top-level keys, the
    heading, and one line [key: value] per key in the order of the object,
    and prints that the data was processed. *)
Theorem process_json_data_mapping (lib : library) (env : environment)
    (folder filename processed : string) (s : state) (text : string)
    (kv : list (string * json)) :
  fs s !! path_join folder filename = Some text ->
  json_loads lib text = Some (JObj kv) ->
  writable env (path_join folder processed) = true ->
  exists s',
    process_json_data lib env folder filename processed s = (Ok tt, s')
    /\ fs s' = <[path_join folder processed :=
                  "Item count: " +:+ pretty (length kv) +:+ nl
                  +:+ "JSON data summary:" +:+ nl
                  +:+ cat ((fun '(key, value) => key +:+ ": " +:+ str_json lib value +:+ nl)
                           <$> kv)]> (fs s)
    /\ console s'
       = console s ++ ["JSON data processed and saved to " +:+ path_join folder processed].
Proof.
  intros Hin Hv Hw.
  pose proof (process_json_data_run lib env folder filename processed s) as Hrun.
  rewrite Hin in Hrun. unfold process_json_effect in Hrun.
  rewrite Hv in Hrun. cbn [py_len py_items] in Hrun. rewrite Hw in Hrun.
  eexists. split; [exact Hrun|]. split; [|done].
  unfold apply_effect, json_report, json_entries. cbn [fs eff_write].
  by rewrite !append_assoc.
Qed.

Lemma process_json_data_mapping_witness :
  exists s',
    process_json_data Worlds.lib Worlds.objects "data" "data.json" "processed_json.txt"
      (Demo.holding "data/data.json" Worlds.object_text) = (Ok tt, s')
    /\ fs s' !! "data/processed_json.txt"
       = Some ("Item count: 2" +:+ nl +:+ "JSON data summary:" +:+ nl
               +:+ "a: 1" +:+ nl +:+ "b: 2" +:+ nl).
Proof.
  destruct (process_json_data_mapping Worlds.lib Worlds.objects "data" "data.json"
              "processed_json.txt" (Demo.holding "data/data.json" Worlds.object_text)
              Worlds.object_text [("a", JInt 1); ("b", JInt 2)])
    as (s' & Hrun & Hfs & _); [reflexivity..|].
  exists s'. split; [exact Hrun|]. rewrite Hfs. apply lookup_insert_eq.
Defined.

(** X7.  When the input file holds a number, a boolean or [null], [len]
    fails before the report is opened: the report file is not created or
    changed, and the error names the type of the value. *)
Theorem process_json_data_no_len (lib : library) (env : environment)
    (folder filename processed : string) (s : state) (text : string) (v : json) :
  fs s !! path_join folder filename = Some text ->
  json_loads lib text = Some v ->
  has_len v = false ->
  exists s',
    process_json_data lib env folder filename processed s = (Ok tt, s')
    /\ fs s' = fs s
    /\ console s'
       = console s ++ ["Error processing JSON data: object of type '"
                       +:+ type_name v +:+ "' has no len()"].
Proof.
  intros Hin Hv Hlen.
  pose proof (process_json_data_run lib env folder filename processed s) as Hrun.
  rewrite Hin in Hrun. unfold process_json_effect in Hrun. rewrite Hv in Hrun.
  unfold has_len in Hlen.
  destruct v; try discriminate Hlen; cbn [py_len] in Hrun;
    (eexists; split; [exact Hrun|]; split; reflexivity).
Qed.

Lemma process_json_data_no_len_witness :
  exists s',
    process_json_data Demo.lib Demo.online "data" "data.json" "processed_json.txt"
      (Demo.holding "data/data.json" "7") = (Ok tt, s')
    /\ fs s' = {[ "data/data.json" := "7" ]}
    /\ console s' = ["Error processing JSON data: object of type 'int' has no len()"].
Proof.
  apply (process_json_data_no_len Demo.lib Demo.online "data" "data.json"
           "processed_json.txt" (Demo.holding "data/data.json" "7") "7" (JInt 7));
    reflexivity.
Defined.

(** The file a summarizer may write is its report. *)
Lemma effect_frame (c : call) (e : effect) (s : state) (out p : string) :
  (forall q d, eff_write e = Some (q, d) -> q = out) ->
  p <> out ->
  fs (apply_effect c e s) !! p = fs s !! p.
Proof.
  intros He Hp. unfold apply_effect. cbn [fs].
  destruct (eff_write e) as [[q d]|] eqn:Hq; [|done].
  rewrite lookup_insert_ne; [done|]. intros ->. by apply Hp, (He _ d).
Qed.

Lemma process_text_effect_out (env : environment) (folder filename processed : string)
    (input : option string) (q d : string) :
  eff_write (process_text_effect env folder filename processed input) = Some (q, d) ->
  q = path_join folder processed.
Proof.
  unfold process_text_effect. destruct input; [|done].
  destruct (writable env _); [|done]. by intros [= <- _].
Qed.

Lemma process_csv_effect_out (lib : library) (env : environment)
    (folder filename processed : string) (input : option string) (q d : string) :
  eff_write (process_csv_effect lib env folder filename processed input) = Some (q, d) ->
  q = path_join folder processed.
Proof.
  unfold process_csv_effect. destruct input as [c|]; [|done].
  destruct (parse_csv lib c); [|done].
  destruct (writable env _); [|done]. by intros [= <- _].
Qed.

Lemma process_excel_effect_out (lib : library) (env : environment)
    (folder filename processed : string) (input : option string) (q d : string) :
  eff_write (process_excel_effect lib env folder filename processed input) = Some (q, d) ->
  q = path_join folder processed.
Proof.
  unfold process_excel_effect. destruct input as [c|]; [|done].
  destruct (parse_excel lib c); [|done].
  destruct (writable env _); [|done]. by intros [= <- _].
Qed.

Lemma process_json_effect_out (lib : library) (env : environment)
    (folder filename processed : string) (input : option string) (q d : string) :
  eff_write (process_json_effect lib env folder filename processed input) = Some (q, d) ->
  q = path_join folder processed.
Proof.
  unfold process_json_effect. destruct input as [c|]; [|done].
  destruct (json_loads lib c) as [v|]; [|done].
  destruct (py_len v); [|done].
  destruct (writable env _); [|done].
  destruct (py_items v); by intros [= <- _].
Qed.

(** X8.  No exception leaves a summarizer, whatever the files hold and
    whatever the libraries do with them: each of the four returns normally
    and prints exactly one line, the success message or the error. *)
Theorem summarizers_never_raise (lib : library) (env : environment)
    (folder filename processed : string) (s : state) :
  (exists line s',
      process_text_data env folder filename processed s = (Ok tt, s')
      /\ console s' = console s ++ [line])
  /\ (exists line s',
      process_csv_data lib env folder filename processed s = (Ok tt, s')
      /\ console s' = console s ++ [line])
  /\ (exists line s',
      process_excel_data lib env folder filename processed s = (Ok tt, s')
      /\ console s' = console s ++ [line])
  /\ (exists line s',
      process_json_data lib env folder filename processed s = (Ok tt, s')
      /\ console s' = console s ++ [line]).
Proof.
  split; [|split; [|split]]; eexists _, _.
  - split; [apply process_text_data_run|reflexivity].
  - split; [apply process_csv_data_run|reflexivity].
  - split; [apply process_excel_data_run|reflexivity].
  - split; [apply process_json_data_run|reflexivity].
Qed.

(** X9.  A summarizer changes no file but its report: the input file and
    every other file hold after the call what they held before. *)
Theorem summarizers_touch_only_report (lib : library) (env : environment)
    (folder filename processed : string) :
  only_touches [path_join folder processed]
    (process_text_data env folder filename processed)
  /\ only_touches [path_join folder processed]
       (process_csv_data lib env folder filename processed)
  /\ only_touches [path_join folder processed]
       (process_excel_data lib env folder filename processed)
  /\ only_touches [path_join folder processed]
       (process_json_data lib env folder filename processed).
Proof.
  split; [|split; [|split]]; intros s p Hp;
    assert (Hne : p <> path_join folder processed) by (intros ->; apply Hp; by left).
  - rewrite process_text_data_run. cbn [snd].
    apply (effect_frame _ _ _ (path_join folder processed)); [|done].
    intros q d. apply process_text_effect_out.
  - rewrite process_csv_data_run. cbn [snd].
    apply (effect_frame _ _ _ (path_join folder processed)); [|done].
    intros q d. apply process_csv_effect_out.
  - rewrite process_excel_data_run. cbn [snd].
    apply (effect_frame _ _ _ (path_join folder processed)); [|done].
    intros q d. apply process_excel_effect_out.
  - rewrite process_json_data_run. cbn [snd].
    apply (effect_frame _ _ _ (path_join folder processed)); [|done].
    intros q d. apply process_json_effect_out.
Qed.

(** X10.  When the input file does not exist, each summarizer prints the
    error of the failed [open] and changes no file. *)
Theorem summarizers_missing_input (lib : library) (env : environment)
    (folder filename processed : string) (s : state) :
  fs s !! path_join folder filename = None ->
  let missing := "[Errno 2] No such file or directory: '"
                 +:+ path_join folder filename +:+ "'" in
  (exists s', process_text_data env folder filename processed s = (Ok tt, s')
              /\ fs s' = fs s
              /\ console s' = console s ++ ["Error processing text data: " +:+ missing])
  /\ (exists s', process_csv_data lib env folder filename processed s = (Ok tt, s')
              /\ fs s' = fs s
              /\ console s' = console s ++ ["Error processing CSV data: " +:+ missing])
  /\ (exists s', process_excel_data lib env folder filename processed s = (Ok tt, s')
              /\ fs s' = fs s
              /\ console s' = console s ++ ["Error processing Excel data: " +:+ missing])
  /\ (exists s', process_json_data lib env folder filename processed s = (Ok tt, s')
              /\ fs s' = fs s
              /\ console s' = console s ++ ["Error processing JSON data: " +:+ missing]).
Proof.
  intros Hin missing. subst missing. split; [|split; [|split]]; eexists.
  - rewrite process_text_data_run, Hin. split; [reflexivity|]. by split.
  - rewrite process_csv_data_run, Hin. split; [reflexivity|]. by split.
  - rewrite process_excel_data_run, Hin. split; [reflexivity|]. by split.
  - rewrite process_json_data_run, Hin. split; [reflexivity|]. by split.
Qed.

Lemma summarizers_missing_input_witness :
  exists s',
    process_csv_data Demo.lib Demo.online "data" "data.csv" "processed_csv.txt" Demo.fresh
    = (Ok tt, s')
    /\ fs s' = ∅
    /\ console s'
       = ["Error processing CSV data: [Errno 2] No such file or directory: 'data/data.csv'"].
Proof.
  exact (proj1 (proj2 (summarizers_missing_input Demo.lib Demo.online "data" "data.csv"
                         "processed_csv.txt" Demo.fresh eq_refl))).
Defined.



(** ** Frames of a run *)

Lemma only_touches_ret {A} (paths : list string) (a : A) :
  only_touches paths (mret a : M A).
Proof. by intros s p _. Qed.

Lemma only_touches_bind {A B} (paths : list string) (m : M A) (k : A -> M B) :
  only_touches paths m -> (forall a, only_touches paths (k a)) ->
  only_touches paths (m ≫= k).
Proof.
  intros Hm Hk s p Hp. specialize (Hm s p Hp).
  unfold mbind, M_bind. destruct (m s) as [[a|e] s1]; cbn [snd] in *; [|done].
  by rewrite (Hk a s1 p Hp).
Qed.

Lemma only_touches_mono {A} (paths paths' : list string) (m : M A) :
  paths ⊆ paths' -> only_touches paths m -> only_touches paths' m.
Proof. intros Hsub Hm s p Hp. apply Hm. intros Hin. by apply Hp, Hsub. Qed.

Lemma only_touches_same {A} (m : M A) :
  (forall s, fs (snd (m s)) = fs s) -> only_touches [] m.
Proof. intros Hm s p _. by rewrite Hm. Qed.

Lemma fetch_txt_data_fs (env : environment) (url : string) (s : state) :
  fs (snd (fetch_txt_data env url s)) = fs s.
Proof.
  rewrite fetch_txt_data_run. destruct (http_get env url) as [r|]; [|done].
  by destruct (status_code r =? 200)%Z.
Qed.

Lemma fetch_csv_data_fs (env : environment) (url : string) (s : state) :
  fs (snd (fetch_csv_data env url s)) = fs s.
Proof.
  rewrite fetch_csv_data_run. destruct (http_get env url) as [r|]; [|done].
  by destruct (status_code r =? 200)%Z.
Qed.

Lemma fetch_excel_data_fs (env : environment) (url : string) (s : state) :
  fs (snd (fetch_excel_data env url s)) = fs s.
Proof.
  rewrite fetch_excel_data_run. destruct (http_get env url) as [r|]; [|done].
  by destruct (status_code r =? 200)%Z.
Qed.

Lemma fetch_json_data_fs (lib : library) (env : environment) (url : string) (s : state) :
  fs (snd (fetch_json_data lib env url s)) = fs s.
Proof.
  rewrite fetch_json_data_run. destruct (http_get env url) as [r|]; [|done].
  destruct (status_code r =? 200)%Z; [|done]. by destruct (json_loads lib (body r)).
Qed.

Lemma saved_frame (c : call) (what path data p : string) (s : state) :
  p <> path -> fs (apply_effect c (saved what path data) s) !! p = fs s !! p.
Proof. intros Hp. rewrite fs_apply_effect_saved. by apply lookup_insert_ne. Qed.

Lemma save_text_touches (env : environment) (filename content : string) :
  only_touches [path_join data_path filename] (save_text env filename content).
Proof.
  intros s p Hp. rewrite save_text_run. cbv zeta.
  destruct (writable env _); [|done]. apply saved_frame. intros ->. apply Hp. by left.
Qed.

Lemma save_excel_touches (env : environment) (filename content : string) :
  only_touches [path_join data_path filename] (save_excel env filename content).
Proof.
  intros s p Hp. rewrite save_excel_run. cbv zeta.
  destruct (writable env _); [|done]. apply saved_frame. intros ->. apply Hp. by left.
Qed.

Lemma save_json_touches (lib : library) (env : environment) (filename : string)
    (content : json) :
  only_touches [path_join data_path filename] (save_json lib env filename content).
Proof.
  intros s p Hp. rewrite save_json_run. cbv zeta.
  destruct (writable env _); [|done]. apply saved_frame. intros ->. apply Hp. by left.
Qed.

Lemma save_csv_touches (lib : library) (env : environment) (filename content : string) :
  only_touches [path_join data_path filename] (save_csv lib env filename content).
Proof.
  intros s p Hp. rewrite save_csv_run. cbv zeta.
  destruct (parse_csv lib content); [|done].
  destruct (writable env _); [|done]. apply saved_frame. intros ->. apply Hp. by left.
Qed.

Lemma process_text_data_touches (env : environment) (folder filename processed : string) :
  only_touches [path_join folder processed]
    (process_text_data env folder filename processed).
Proof.
  intros s p Hp. rewrite process_text_data_run. cbn [snd].
  apply (effect_frame _ _ _ (path_join folder processed)).
  - intros q d. apply process_text_effect_out.
  - intros ->. apply Hp. by left.
Qed.

Lemma process_csv_data_touches (lib : library) (env : environment)
    (folder filename processed : string) :
  only_touches [path_join folder processed]
    (process_csv_data lib env folder filename processed).
Proof.
  intros s p Hp. rewrite process_csv_data_run. cbn [snd].
  apply (effect_frame _ _ _ (path_join folder processed)).
  - intros q d. apply process_csv_effect_out.
  - intros ->. apply Hp. by left.
Qed.

Lemma process_excel_data_touches (lib : library) (env : environment)
    (folder filename processed : string) :
  only_touches [path_join folder processed]
    (process_excel_data lib env folder filename processed).
Proof.
  intros s p Hp. rewrite process_excel_data_run. cbn [snd].
  apply (effect_frame _ _ _ (path_join folder processed)).
  - intros q d. apply process_excel_effect_out.
  - intros ->. apply Hp. by left.
Qed.

Lemma process_json_data_touches (lib : library) (env : environment)
    (folder filename processed : string) :
  only_touches [path_join folder processed]
    (process_json_data lib env folder filename processed).
Proof.
  intros s p Hp. rewrite process_json_data_run. cbn [snd].
  apply (effect_frame _ _ _ (path_join folder processed)).
  - intros q d. apply process_json_effect_out.
  - intros ->. apply Hp. by left.
Qed.

Lemma fetch_only_touches {A} (paths : list string) (m : M A) :
  (forall s, fs (snd (m s)) = fs s) -> only_touches paths m.
Proof.
  intros Hm. apply (only_touches_mono []); [by intros ? ?%elem_of_nil|].
  by apply only_touches_same.
Qed.

Lemma pair_listed (p q : string) : [p] ⊆ [q; p].
Proof. intros x ->%list_elem_of_singleton. right. by left. Qed.

Lemma head_listed (p q : string) : [p] ⊆ [p; q].
Proof. intros x ->%list_elem_of_singleton. by left. Qed.

Lemma text_block_touches (env : environment) :
  only_touches ["data/data.txt"; "data/processed_text.txt"] (text_block env).
Proof.
  unfold text_block. apply only_touches_bind.
  { apply fetch_only_touches. intros. apply fetch_txt_data_fs. }
  intros [content|]; [|apply only_touches_ret].
  destruct (str_truthy content); [|apply only_touches_ret].
  apply only_touches_bind; [|intros _].
  - eapply only_touches_mono; [|apply save_text_touches]. apply head_listed.
  - eapply only_touches_mono; [|apply process_text_data_touches]. apply pair_listed.
Qed.

Lemma csv_block_touches (lib : library) (env : environment) :
  only_touches ["data/data.csv"; "data/processed_csv.txt"] (csv_block lib env).
Proof.
  unfold csv_block. apply only_touches_bind.
  { apply fetch_only_touches. intros. apply fetch_csv_data_fs. }
  intros [content|]; [|apply only_touches_ret].
  destruct (str_truthy content); [|apply only_touches_ret].
  apply only_touches_bind; [|intros _].
  - eapply only_touches_mono; [|apply save_csv_touches]. apply head_listed.
  - eapply only_touches_mono; [|apply process_csv_data_touches]. apply pair_listed.
Qed.

Lemma excel_block_touches (lib : library) (env : environment) :
  only_touches ["data/data.xls"; "data/processed_excel.txt"] (excel_block lib env).
Proof.
  unfold excel_block. apply only_touches_bind.
  { apply fetch_only_touches. intros. apply fetch_excel_data_fs. }
  intros [content|]; [|apply only_touches_ret].
  destruct (str_truthy content); [|apply only_touches_ret].
  apply only_touches_bind; [|intros _].
  - eapply only_touches_mono; [|apply save_excel_touches]. apply head_listed.
  - eapply only_touches_mono; [|apply process_excel_data_touches]. apply pair_listed.
Qed.

Lemma json_block_touches (lib : library) (env : environment) :
  only_touches ["data/data.json"; "data/processed_json.txt"] (json_block lib env).
Proof.
  unfold json_block. apply only_touches_bind.
  { apply fetch_only_touches. intros. apply fetch_json_data_fs. }
  intros [content|]; [|apply only_touches_ret].
  destruct (json_truthy content); [|apply only_touches_ret].
  apply only_touches_bind; [|intros _].
  - eapply only_touches_mono; [|apply save_json_touches]. apply head_listed.
  - eapply only_touches_mono; [|apply process_json_data_touches]. apply pair_listed.
Qed.

Lemma data_files_listed (p q : string) :
  bool_decide (p ∈ data_files) = true -> bool_decide (q ∈ data_files) = true ->
  [p; q] ⊆ data_files.
Proof.
  intros Hp%bool_decide_eq_true Hq%bool_decide_eq_true x Hx.
  apply elem_of_cons in Hx as [->|Hx]; [done|].
  by apply list_elem_of_singleton in Hx as ->.
Qed.

(** X12.  Whatever the servers answer and whatever the libraries do, a run
    of [main] creates or changes no file other than the four downloaded
    files and the four reports under [data]; and each pipeline keeps to the
    two files of its own dataset. *)
Theorem main_writes_only_data_files (lib : library) (env : environment) :
  only_touches data_files (main lib env)
  /\ only_touches ["data/data.txt"; "data/processed_text.txt"] (text_block env)
  /\ only_touches ["data/data.csv"; "data/processed_csv.txt"] (csv_block lib env)
  /\ only_touches ["data/data.xls"; "data/processed_excel.txt"] (excel_block lib env)
  /\ only_touches ["data/data.json"; "data/processed_json.txt"] (json_block lib env).
Proof.
  split; [|split; [apply text_block_touches|split; [apply csv_block_touches|
           split; [apply excel_block_touches|apply json_block_touches]]]].
  unfold main.
  apply only_touches_bind; [|intros _; apply only_touches_bind;
                             [|intros _; apply only_touches_bind; [|intros _]]].
  - eapply only_touches_mono; [|apply text_block_touches].
    apply data_files_listed; vm_compute; reflexivity.
  - eapply only_touches_mono; [|apply csv_block_touches].
    apply data_files_listed; vm_compute; reflexivity.
  - eapply only_touches_mono; [|apply excel_block_touches].
    apply data_files_listed; vm_compute; reflexivity.
  - eapply only_touches_mono; [|apply json_block_touches].
    apply data_files_listed; vm_compute; reflexivity.
Qed.

(** X13.  When each of the four servers answers with a status other than
    200, [main] ends normally having entered the four fetchers and nothing
    else: no file is created or changed, and the console gains the four
    failure lines with the status codes, in the order of the datasets. *)
Theorem main_all_refused (lib : library) (env : environment) (s : state)
    (r1 r2 r3 r4 : response) :
  http_get env txt_url = Ok r1 -> status_code r1 <> 200%Z ->
  http_get env csv_url = Ok r2 -> status_code r2 <> 200%Z ->
  http_get env excel_url = Ok r3 -> status_code r3 <> 200%Z ->
  http_get env json_url = Ok r4 -> status_code r4 <> 200%Z ->
  main lib env s
  = (Ok tt,
     {| fs := fs s;
        console := console s ++
          [ "Failed to fetch text data: " +:+ pretty (status_code r1);
            "Failed to fetch CSV data: " +:+ pretty (status_code r2);
            "Failed to fetch Excel data: " +:+ pretty (status_code r3);
            "Failed to fetch JSON data: " +:+ pretty (status_code r4) ];
        calls := calls s ++ [Fetch Text; Fetch CSV; Fetch Spreadsheet; Fetch JSON] |}).
Proof.
  intros H1 C1 H2 C2 H3 C3 H4 C4.
  apply Z.eqb_neq in C1, C2, C3, C4.
  unfold main.
  eapply bind_step.
  { unfold text_block.
    eapply bind_step; [rewrite fetch_txt_data_run, H1, C1; reflexivity|reflexivity]. }
  eapply bind_step.
  { unfold csv_block.
    eapply bind_step; [rewrite fetch_csv_data_run, H2, C2; reflexivity|reflexivity]. }
  eapply bind_step.
  { unfold excel_block.
    eapply bind_step; [rewrite fetch_excel_data_run, H3, C3; reflexivity|reflexivity]. }
  unfold json_block. eapply bind_step.
  { rewrite fetch_json_data_run, H4, C4. reflexivity. }
  unfold refused. cbn [fs console calls mret M_ret].
  by rewrite <- !(assoc_L (++)).
Qed.

Lemma main_all_refused_witness :
  main Demo.lib Worlds.refusing Demo.fresh
  = (Ok tt,
     {| fs := ∅;
        console := [ "Failed to fetch text data: 404"; "Failed to fetch CSV data: 404";
                     "Failed to fetch Excel data: 404"; "Failed to fetch JSON data: 404" ];
        calls := [Fetch Text; Fetch CSV; Fetch Spreadsheet; Fetch JSON] |}).
Proof.
  exact (main_all_refused Demo.lib Worlds.refusing Demo.fresh
           {| status_code := 404; body := "Not Found" |}
           {| status_code := 404; body := "Not Found" |}
           {| status_code := 404; body := "Not Found" |}
           {| status_code := 404; body := "Not Found" |}
           eq_refl ltac:(discriminate) eq_refl ltac:(discriminate)
           eq_refl ltac:(discriminate) eq_refl ltac:(discriminate)).
Defined.

Lemma block_calls_shape (lib : library) (env : environment) (d : dataset) :
  (block_exn lib env d = None /\
   (block_calls lib env d = [Fetch d]
    \/ block_calls lib env d = [Fetch d; Save d; Process d]))
  \/ (block_exn lib env d <> None /\
      (block_calls lib env d = [Fetch d]
       \/ block_calls lib env d = [Fetch d; Save d])).
Proof.
  unfold block_exn, block_calls.
  destruct (fetch_exn lib env d) as [e|] eqn:Hf.
  - right. split; [done|]. destruct (payload_truthy lib env d) eqn:Hp; [|by left].
    exfalso. unfold fetch_exn, payload_truthy in *.
    destruct (http_get env (url_of d)) as [r|]; [|done].
    destruct (status_code r =? 200)%Z; [|done].
    destruct d; try done. by destruct (json_loads lib (body r)).
  - destruct (payload_truthy lib env d); [|left; split; [done|by left]].
    destruct (save_exn lib env d).
    + right. split; [done|by right].
    + left. split; [done|by right].
Qed.

Lemma block_calls_sublist (lib : library) (env : environment) (d : dataset) :
  sublist (block_calls lib env d) [Fetch d; Save d; Process d].
Proof.
  destruct (block_calls_shape lib env d) as [[_ [-> | ->]]|[_ [-> | ->]]].
  - apply sublist_skip, sublist_nil_l.
  - reflexivity.
  - apply sublist_skip, sublist_nil_l.
  - do 2 apply sublist_skip. apply sublist_nil_l.
Qed.

Lemma block_calls_closed (lib : library) (env : environment) (d0 d : dataset) :
  (Process d ∈ block_calls lib env d0 -> Save d ∈ block_calls lib env d0)
  /\ (Save d ∈ block_calls lib env d0 -> Fetch d ∈ block_calls lib env d0).
Proof.
  destruct (block_calls_shape lib env d0) as [[_ [-> | ->]]|[_ [-> | ->]]];
    split; intros H;
    repeat (apply elem_of_cons in H as [H|H]; [try discriminate H; injection H as ->|]);
    try (by apply elem_of_nil in H); repeat constructor.
Qed.

Lemma run_calls_sublist (lib : library) (env : environment) (ds : list dataset) :
  sublist (run_calls lib env ds) (concat ((fun d => [Fetch d; Save d; Process d]) <$> ds)).
Proof.
  induction ds as [|d ds IH]; [done|].
  cbn [run_calls fmap list_fmap concat].
  apply (sublist_app _ [Fetch d; Save d; Process d]); [apply block_calls_sublist|].
  destruct (block_exn lib env d); [apply sublist_nil_l|exact IH].
Qed.

Lemma run_calls_closed (lib : library) (env : environment) (ds : list dataset)
    (d : dataset) :
  (Process d ∈ run_calls lib env ds -> Save d ∈ run_calls lib env ds)
  /\ (Save d ∈ run_calls lib env ds -> Fetch d ∈ run_calls lib env ds).
Proof.
  induction ds as [|d0 ds [IHp IHs]].
  { split; intros H; by apply elem_of_nil in H. }
  cbn [run_calls]. destruct (block_calls_closed lib env d0 d) as [Hp Hs].
  split; intros [H|H]%elem_of_app; apply elem_of_app.
  - left. by apply Hp.
  - right. destruct (block_exn lib env d0); [by apply elem_of_nil in H|by apply IHp].
  - left. by apply Hs.
  - right. destruct (block_exn lib env d0); [by apply elem_of_nil in H|by apply IHs].
Qed.

Lemma run_calls_last (lib : library) (env : environment) (ds : list dataset) (e : exn) :
  run_result lib env ds = Raise e ->
  exists d, last (run_calls lib env ds) = Some (Fetch d)
            \/ last (run_calls lib env ds) = Some (Save d).
Proof.
  induction ds as [|d ds IH]; [done|]. cbn [run_result run_calls].
  destruct (block_calls_shape lib env d) as [[E [B|B]]|[E [B|B]]];
    destruct (block_exn lib env d) as [e'|]; try done; rewrite B; intros He.
  - destruct (IH He) as [d' [H|H]]; exists d'; rewrite last_app, H; auto.
  - destruct (IH He) as [d' [H|H]]; exists d'; rewrite last_app, H; auto.
  - exists d. by left.
  - exists d. by right.
Qed.

(** X14.  In every run of [main], ended normally or by an exception, the
    functions entered form a subsequence of the twelve calls in program
    order, so none is entered twice; a summarizer is entered only after the
    writer of its dataset and a writer only after its fetcher; and when an
    exception ends the run, the last function entered is a fetcher or a
    writer, never a summarizer. *)
Theorem main_call_order (lib : library) (env : environment) (s : state) :
  exists r s' cs,
    main lib env s = (r, s')
    /\ calls s' = calls s ++ cs
    /\ sublist cs all_calls
    /\ NoDup cs
    /\ (forall d, Process d ∈ cs -> Save d ∈ cs)
    /\ (forall d, Save d ∈ cs -> Fetch d ∈ cs)
    /\ (forall e, r = Raise e ->
          exists d, last cs = Some (Fetch d) \/ last cs = Some (Save d)).
Proof.
  destruct (main_run lib env) as [W Hrun].
  destruct (Hrun s) as (s' & Hmain & Hcalls & _).
  exists (run_result lib env all_datasets), s', (run_calls lib env all_datasets).
  pose proof (run_calls_sublist lib env all_datasets) as Hsub.
  change (concat _) with all_calls in Hsub.
  split; [done|]. split; [done|]. split; [done|]. split.
  { apply (sublist_NoDup _ all_calls); [|exact Hsub]. apply (bool_decide_unpack _). by vm_compute. }
  split; [intros d; apply run_calls_closed|].
  split; [intros d; apply run_calls_closed|].
  intros e. apply run_calls_last.
Qed.

(** ** Pipelines, from the answer of the server to the report *)







(** X18.  When the parser refuses the downloaded CSV text, the exception
    leaves [save_csv] and ends the run there: nothing is written to
    [data/data.csv], only the two text files may have changed, and the
    spreadsheet and JSON pipelines are never entered. *)
Theorem main_stops_at_bad_csv (lib : library) (env : environment) (s : state)
    (r : response) (e : exn) :
  block_exn lib env Text = None ->
  http_get env csv_url = Ok r ->
  status_code r = 200%Z ->
  str_truthy (body r) = true ->
  parse_csv lib (body r) = Raise e ->
  exists s',
    main lib env s = (Raise e, s')
    /\ calls s' = calls s ++ block_calls lib env Text ++ [Fetch CSV; Save CSV]
    /\ (forall p, p ∉ ["data/data.txt"; "data/processed_text.txt"] ->
          fs s' !! p = fs s !! p).
Proof.
  intros Htext Hget Hst Htruthy Hparse. apply Z.eqb_eq in Hst.
  destruct (text_block_run lib env) as [W Hrun].
  destruct (Hrun s) as (s1 & Ht & Hc1 & _).
  unfold block_result in Ht. rewrite Htext in Ht. cbn [block] in Ht.
  pose proof (text_block_touches env s) as Hframe. rewrite Ht in Hframe. cbn [snd] in Hframe.
  eexists. split.
  { unfold main. eapply bind_step; [exact Ht|].
    eapply bind_stop; [|reflexivity].
    unfold csv_block.
    eapply bind_step; [rewrite fetch_csv_data_run, Hget, Hst; reflexivity|].
    cbv beta iota. rewrite Htruthy.
    eapply bind_stop; [|reflexivity].
    rewrite save_csv_run. cbv zeta. rewrite Hparse. reflexivity. }
  split.
  - cbn [calls log]. by rewrite Hc1, <- !(assoc_L (++)).
  - intros p Hp. cbn [fs log]. by apply Hframe.
Qed.

Lemma main_stops_at_bad_csv_witness :
  exists s',
    main Demo.lib Worlds.blank_csv Demo.fresh = (Raise EmptyDataError, s')
    /\ calls s' = [Fetch Text; Save Text; Process Text; Fetch CSV; Save CSV]
    /\ fs s' !! "data/data.csv" = None.
Proof.
  destruct (main_stops_at_bad_csv Demo.lib Worlds.blank_csv Demo.fresh
              {| status_code := 200; body := nl |} EmptyDataError)
    as (s' & Hrun & Hcalls & Hfs); [reflexivity..|].
  exists s'. split; [exact Hrun|]. split; [exact Hcalls|].
  rewrite Hfs; [reflexivity|].
  apply (bool_decide_unpack _). vm_compute. exact I.
Defined.

(** ** Counting words *)

Lemma dict_set_sum (d : dict nat) (k : string) :
  sum_list (dict_set d k (dict_get d k 0 + 1)).*2 = sum_list d.*2 + 1.
Proof.
  induction d as [|[k' v] d IH]; cbn [dict_set dict_get]; [done|].
  unfold sum_list, id in *.
  destruct (String.eqb k' k); rewrite !fmap_cons; cbn [snd sum_list_with]; [lia|].
  rewrite IH. lia.
Qed.

Lemma dict_set_positive (d : dict nat) (k : string) (v : nat) :
  1 <= v -> Forall (fun p => 1 <= snd p) d ->
  Forall (fun p => 1 <= snd p) (dict_set d k v).
Proof.
  intros Hv Hd. induction Hd as [|[k' v'] d Hp Hd IH]; cbn [dict_set].
  - by repeat constructor.
  - destruct (String.eqb k' k); constructor; done.
Qed.

Lemma count_loop_invariant (words : list string) (d : dict nat) :
  let d' := foldl (fun word_freq word =>
                     dict_set word_freq word (dict_get word_freq word 0 + 1)) d words in
  sum_list d'.*2 = sum_list d.*2 + length words
  /\ (Forall (fun p => 1 <= snd p) d -> Forall (fun p => 1 <= snd p) d').
Proof.
  revert d. induction words as [|w words IH]; intros d; cbn [foldl length].
  - split; [lia|done].
  - destruct (IH (dict_set d w (dict_get d w 0 + 1))) as [Hsum Hpos].
    cbv zeta in *. split.
    + rewrite Hsum, dict_set_sum. lia.
    + intros Hd. apply Hpos, dict_set_positive; [lia|done].
Qed.

(** X19.  The frequencies the text summarizer reports add up to the total
    number of words, every reported frequency is at least one, and no word
    is reported twice. *)
Theorem word_counts_add_up (words : list string) :
  sum_list (count_words words).*2 = length words
  /\ Forall (fun p => 1 <= snd p) (count_words words)
  /\ NoDup (dict_keys (count_words words))
  /\ (forall w, w ∈ dict_keys (count_words words) <-> w ∈ words).
Proof.
  destruct (count_loop_invariant words []) as [Hsum Hpos]. cbv zeta in *.
  split; [exact Hsum|]. split; [by apply Hpos|].
  rewrite count_words_table. unfold dict_keys, word_table.
  rewrite <- list_fmap_compose.
  assert (Hid : (fst ∘ (fun w => (w, occurrences w words))) <$> distinct_tokens words
                = distinct_tokens words).
  { rewrite <- (list_fmap_id (distinct_tokens words)) at 2. by apply list_fmap_ext. }
  rewrite Hid. split; [apply first_seen_NoDup|].
  intros w. apply distinct_tokens_elem.
Qed.

Lemma first_seen_sublist (seen l : list string) : sublist (first_seen seen l) l.
Proof.
  revert seen. induction l as [|w l IH]; intros seen; cbn [first_seen]; [done|].
  case_bool_decide; [apply sublist_cons, IH|apply sublist_skip, IH].
Qed.

Lemma sublist_same_length {A} (l1 l2 : list A) :
  sublist l1 l2 -> length l1 = length l2 -> l1 = l2.
Proof.
  induction 1 as [|x l1 l2 Hsub IH|x l1 l2 Hsub IH]; cbn [length]; intros Hlen.
  - done.
  - f_equal. apply IH. lia.
  - apply sublist_length in Hsub. lia.
Qed.

(** X20.  The number of unique words never exceeds the total, and the two
    numbers of the report are equal exactly when no word occurs twice. *)
Theorem unique_words_at_most_total (words : list string) :
  unique_word_count words <= length words
  /\ (unique_word_count words = length words <-> NoDup words).
Proof.
  rewrite unique_word_count_distinct. unfold distinct_tokens.
  pose proof (first_seen_sublist [] words) as Hsub.
  split; [by apply sublist_length|]. split.
  - intros Hlen. rewrite <- (sublist_same_length _ _ Hsub Hlen). apply first_seen_NoDup.
  - intros Hnd. fold (distinct_tokens words).
    rewrite <- unique_word_count_distinct. unfold unique_word_count.
    by apply size_list_to_set.
Qed.

Lemma split_go_app (cur a b : string) (c : ascii) :
  isspace c = true ->
  split_go cur (a +:+ String c b) = split_go cur a ++ split_go "" b.
Proof.
  intros Hc. revert cur. induction a as [|x a IH]; intros cur.
  - change ("" +:+ String c b) with (String c b). cbn [split_go]. rewrite Hc.
    by destruct cur.
  - change (String x a +:+ String c b) with (String x (a +:+ String c b)).
    cbn [split_go]. destruct (isspace x).
    + destruct cur; [apply IH|]. cbn [app]. f_equal. apply IH.
    + apply IH.
Qed.

(** X21.  [split] cuts at every whitespace character: the words of two
    texts joined by one whitespace character are the words of the first
    followed by the words of the second, so the total of the joined text is
    the sum of the two totals. *)
Theorem split_at_whitespace (a b : string) (c : ascii) :
  isspace c = true ->
  split (a +:+ String c b) = split a ++ split b
  /\ length (split (a +:+ String c b)) = length (split a) + length (split b).
Proof.
  intros Hc. unfold split. rewrite (split_go_app "" a b c Hc).
  split; [done|apply length_app].
Qed.

Lemma split_at_whitespace_witness :
  split ("the cat" +:+ nl +:+ "the  hat ") = ["the"; "cat"] ++ ["the"; "hat"].
Proof.
  exact (proj1 (split_at_whitespace "the cat" "the  hat " (Ascii.ascii_of_nat 10) eq_refl)).
Defined.

(** ** Tables without numbers *)



